(** * Data Quality Impact Calculator: the metrics engine

    A shallow embedding of [calculate_metrics] from
    [data_quality_calculator.py] and the properties its specification
    states about it.

    Numbers.  Python floats are idealised as exact rationals ([Q]); the
    only Python operation of the function that can raise is a float
    division whose divisor is zero ([ZeroDivisionError]).  Values that come
    out of NumPy and SciPy ([np.sqrt], [stats.norm.ppf], [stats.norm.cdf])
    are [numpy.float64]: they never raise, a zero divisor gives an infinity
    or a NaN, and a NaN makes every comparison false.  Signed zeros,
    rounding and overflow are not modelled: a statement below is about
    the arithmetic read over the rationals, and [Doubles] evaluates a few
    lines on binary64 where the difference shows. *)

From Stdlib Require Import ZArith QArith Qabs List Bool String Lia Lqa.
From Stdlib Require Floats.
Import ListNotations.
Local Open Scope Q_scope.

(** ** Python exceptions and results *)

Inductive exception : Type :=
| ZeroDivisionError.

Inductive result (A : Type) : Type :=
| OK (a : A)
| Raise (e : exception).

Arguments OK {A} a.
Arguments Raise {A} e.

Definition bind {A B : Type} (m : result A) (k : A -> result B) : result B :=
  match m with
  | OK a => k a
  | Raise e => Raise e
  end.

Notation "x <- m ;; k" := (bind m (fun x => k))
  (at level 61, m at next level, right associativity).

(** ** Comparisons and division of Python floats *)

Definition Qltb (a b : Q) : bool := negb (Qle_bool b a).

(** [a / b] on Python floats. *)
Definition py_div (a b : Q) : result Q :=
  if Qeq_bool b 0 then Raise ZeroDivisionError else OK (a / b).

(** [range(start, stop, step)] for a positive step. *)
Definition py_range (start stop step : Z) : list Z :=
  map (fun k => (start + step * Z.of_nat k)%Z)
      (seq 0 (Z.to_nat ((stop - start + step - 1) / step))).

(** ** numpy.float64 *)

Inductive float64 : Type :=
| Fin (q : Q)
| PInf
| NInf
| NaN.

(** The infinity whose sign is the sign of [q]; NaN for zero. *)
Definition inf_of_sign (q : Q) : float64 :=
  if Qltb 0 q then PInf else if Qltb q 0 then NInf else NaN.

Definition np_neg (x : float64) : float64 :=
  match x with
  | Fin q => Fin (- q)
  | PInf => NInf
  | NInf => PInf
  | NaN => NaN
  end.

Definition np_add (x y : float64) : float64 :=
  match x, y with
  | NaN, _ | _, NaN => NaN
  | Fin a, Fin b => Fin (a + b)
  | PInf, NInf | NInf, PInf => NaN
  | PInf, _ | _, PInf => PInf
  | NInf, _ | _, NInf => NInf
  end.

Definition np_sub (x y : float64) : float64 := np_add x (np_neg y).

Definition np_mul (x y : float64) : float64 :=
  match x, y with
  | NaN, _ | _, NaN => NaN
  | Fin a, Fin b => Fin (a * b)
  | Fin a, PInf | PInf, Fin a => inf_of_sign a
  | Fin a, NInf | NInf, Fin a => inf_of_sign (- a)
  | PInf, PInf | NInf, NInf => PInf
  | PInf, NInf | NInf, PInf => NaN
  end.

Definition np_div (x y : float64) : float64 :=
  match x, y with
  | NaN, _ | _, NaN => NaN
  | Fin a, Fin b => if Qeq_bool b 0 then inf_of_sign a else Fin (a / b)
  | Fin _, PInf | Fin _, NInf => Fin 0
  | PInf, Fin b => if Qltb b 0 then NInf else PInf
  | NInf, Fin b => if Qltb b 0 then PInf else NInf
  | PInf, _ | NInf, _ => NaN
  end.

(** [x < y]; false as soon as one side is NaN. *)
Definition np_ltb (x y : float64) : bool :=
  match x, y with
  | NaN, _ | _, NaN => false
  | Fin a, Fin b => Qltb a b
  | NInf, NInf | PInf, _ => false
  | NInf, _ => true
  | Fin _, PInf => true
  | Fin _, NInf => false
  end.

Definition np_gtb (x y : float64) : bool := np_ltb y x.

(** ** The widgets' values

    [calculate_metrics] takes no argument: it reads the module-level
    variables bound to the sidebar widgets.  [widgets] is that ambient
    state; [sample_size] and [confidence] are Python ints, the rest are
    floats. *)

Record widgets : Type := Widgets {
  sample_size : Z;
  baseline_conversion : Q;
  expected_lift : Q;
  confidence : Z;
  control_event_loss : Q;
  control_user_id_error : Q;
  control_partial_data : Q;
  variation_event_loss : Q;
  variation_user_id_error : Q;
  variation_partial_data : Q;
  segmentation_errors : Q;
  timeframe_bias : Q
}.

(** The [pd.DataFrame] built from four columns. *)
Record chart : Type := Chart {
  Error_Rate : list Z;
  True_Lift : list Q;
  Observed_Lift : list Q;
  Significant : list bool
}.

(** The dictionary [calculate_metrics] returns, key by key. *)
Record metrics : Type := Metrics {
  effective_sample_size : Q;
  control_observed_conversion : Q;
  variation_observed_conversion : Q;
  actual_lift : Q;
  bias_risk_score : Q;
  stat_power : float64;
  false_positive_risk : Q;
  false_negative_risk : Q;
  detection_threshold : float64;
  conclusion : string;
  conclusion_class : string;
  chart_data : chart;
  control_quality_score : Q;
  variation_quality_score : Q
}.

Section Engine.

(** The numeric library: [np.sqrt] on a non-negative float,
    [stats.norm.ppf] and [stats.norm.cdf].  They are not part of the
    program; every theorem below holds whatever they compute. *)
Variable sqrt_nonneg : Q -> Q.
Variable norm_ppf : Q -> float64.
Variable norm_cdf : float64 -> float64.

(** [np.sqrt]: NaN on a negative argument. *)
Definition np_sqrt (x : float64) : float64 :=
  match x with
  | Fin q => if Qltb q 0 then NaN else Fin (sqrt_nonneg q)
  | PInf => PInf
  | NInf => NaN
  | NaN => NaN
  end.

(** One turn of the loop over [error_rates]: the observed lift at this
    error level and its significance flag. *)
Definition sweep_step (w : widgets) (mde : float64) (error : Z)
  : result (Q * bool) :=
  let (_, baseline_conversion, expected_lift, _,
       control_event_loss, control_user_id_error, control_partial_data,
       variation_event_loss, variation_user_id_error, variation_partial_data,
       _, _) := w in
  let control_error_impact :=
    control_event_loss / 100 + control_user_id_error / 100
    + (inject_Z error / 100) * (control_partial_data / 100) in
  let variation_error_impact :=
    variation_event_loss / 100 + variation_user_id_error / 100
    + (inject_Z error / 100) * (variation_partial_data / 100) in
  let control_observed_rate := baseline_conversion * (1 - control_error_impact) in
  let variation_true_rate := baseline_conversion * (1 + expected_lift / 100) in
  let variation_observed_rate := variation_true_rate * (1 - variation_error_impact) in
  ratio <- py_div variation_observed_rate control_observed_rate ;;
  let observed_lift := (ratio - 1) * 100 in
  OK (observed_lift, np_gtb (Fin (Qabs observed_lift)) mde).

(** The [for error in error_rates] loop, appending to the two lists. *)
Fixpoint sweep (w : widgets) (mde : float64) (errors : list Z)
         (observed_lifts : list Q) (significance_flags : list bool)
  : result (list Q * list bool) :=
  match errors with
  | [] => OK (observed_lifts, significance_flags)
  | error :: rest =>
      p <- sweep_step w mde error ;;
      sweep w mde rest (observed_lifts ++ [fst p]) (significance_flags ++ [snd p])
  end.

Definition calculate_metrics (w : widgets) : result metrics :=
  let (sample_size, baseline_conversion, expected_lift, confidence,
       control_event_loss, control_user_id_error, control_partial_data,
       variation_event_loss, variation_user_id_error, variation_partial_data,
       segmentation_errors, timeframe_bias) := w in
  (* Calculate effective sample size *)
  let control_effective_sample :=
    inject_Z sample_size / 2 * (1 - control_user_id_error / 100)
    * (1 - control_event_loss / 100) in
  let variation_effective_sample :=
    inject_Z sample_size / 2 * (1 - variation_user_id_error / 100)
    * (1 - variation_event_loss / 100) in
  let total_effective_sample := control_effective_sample + variation_effective_sample in
  (* Calculate observed conversion *)
  let control_observed_conversion := baseline_conversion * (1 - control_partial_data / 100) in
  let variation_expected_conversion := baseline_conversion * (1 + expected_lift / 100) in
  let variation_observed_conversion :=
    variation_expected_conversion * (1 - variation_partial_data / 100) in
  (* Calculate actual lift *)
  ratio <- py_div variation_observed_conversion control_observed_conversion ;;
  let reported_lift := (ratio - 1) * 100 in
  (* Calculate bias risk score *)
  let control_quality_score :=
    100 - (control_event_loss + control_user_id_error + control_partial_data) / 3 in
  let variation_quality_score :=
    100 - (variation_event_loss + variation_user_id_error + variation_partial_data) / 3 in
  let quality_difference := Qabs (control_quality_score - variation_quality_score) in
  (* Calculate statistical power (simplified) *)
  let alpha := inject_Z (100 - confidence) / 100 in
  let z_alpha := norm_ppf (1 - alpha / 2) in
  (* Standard error calculation *)
  var_control <-
    py_div (control_observed_conversion * (100 - control_observed_conversion))
           control_effective_sample ;;
  let se_control := np_sqrt (Fin var_control) in
  var_variation <-
    py_div (variation_observed_conversion * (100 - variation_observed_conversion))
           variation_effective_sample ;;
  let se_variation := np_sqrt (Fin var_variation) in
  let pooled_se :=
    np_sqrt (np_add (np_mul se_control se_control) (np_mul se_variation se_variation)) in
  (* Z-score for power calculation *)
  let expected_effect := expected_lift / 100 * baseline_conversion in
  let z_score := np_div (Fin expected_effect) pooled_se in
  let power := norm_cdf (np_sub z_score z_alpha) in
  (* Minimum detectable effect *)
  let mde := np_mul (np_mul z_alpha pooled_se) (Fin 2) in
  (* Calculate false positive and negative risks *)
  let data_quality_impact :=
    (variation_event_loss + variation_user_id_error + variation_partial_data)
    - (control_event_loss + control_user_id_error + control_partial_data) in
  let false_positive_risk :=
    if Qltb data_quality_impact 0 then Qabs (data_quality_impact / 5) else 0 in
  let false_negative_risk :=
    if Qltb 0 data_quality_impact then data_quality_impact / 5 else 0 in
  (* Determine conclusion *)
  let verdict : string * string :=
    if Qltb 0 reported_lift && Qltb reported_lift expected_lift
       && Qltb 5 data_quality_impact
    then ("Likely false negative (true effect is being diluted by data quality issues)"%string,
          "warning"%string)
    else if Qltb expected_lift reported_lift && Qltb data_quality_impact (-5)
    then ("Potential false positive (observed lift is artificially inflated)"%string,
          "danger"%string)
    else if np_ltb (Fin (Qabs reported_lift)) mde
    then ("Inconclusive (effect size is below detection threshold)"%string,
          "info"%string)
    else if np_ltb (Fin (Qabs (reported_lift - expected_lift))) (np_div mde (Fin 2))
    then ("Likely valid result (observed lift matches expected)"%string,
          "success"%string)
    else ("Requires investigation (unexpected results)"%string,
          "warning"%string) in
  (* Generate chart data *)
  let error_rates := py_range 0 21 2 in
  let true_lifts := repeat expected_lift (List.length error_rates) in
  columns <- sweep w mde error_rates [] [] ;;
  let chart_data :=
    {| Error_Rate := error_rates;
       True_Lift := true_lifts;
       Observed_Lift := fst columns;
       Significant := snd columns |} in
  OK (Metrics
        total_effective_sample          (* 'effective_sample_size' *)
        control_observed_conversion     (* 'control_observed_conversion' *)
        variation_observed_conversion   (* 'variation_observed_conversion' *)
        reported_lift                   (* 'actual_lift' *)
        quality_difference              (* 'bias_risk_score' *)
        (np_mul power (Fin 100))        (* 'stat_power' *)
        false_positive_risk             (* 'false_positive_risk' *)
        false_negative_risk             (* 'false_negative_risk' *)
        mde                             (* 'detection_threshold' *)
        (fst verdict)                   (* 'conclusion' *)
        (snd verdict)                   (* 'conclusion_class' *)
        chart_data                      (* 'chart_data' *)
        control_quality_score           (* 'control_quality_score' *)
        variation_quality_score).       (* 'variation_quality_score' *)

End Engine.

(** ** The specification's vocabulary

    The input ranges of the data model and the formulas of the engine's
    steps, written after the specification's text; the theorems compare
    them with what [calculate_metrics] computes. *)

(** A percentage in [[0, 100)]. *)
Definition percentage (x : Q) : Prop := 0 <= x /\ x < 100.

(** A valid [ExperimentInput].  The ranges of [segmentation_errors] and
    [timeframe_bias] are not declared, so they are not constrained. *)
Definition valid (w : widgets) : Prop :=
  (0 < sample_size w)%Z
  /\ (0 < baseline_conversion w /\ baseline_conversion w < 100)
  /\ -100 <= expected_lift w
  /\ (confidence w = 90 \/ confidence w = 95 \/ confidence w = 99)%Z
  /\ (percentage (control_event_loss w)
      /\ percentage (control_user_id_error w)
      /\ percentage (control_partial_data w))
  /\ (percentage (variation_event_loss w)
      /\ percentage (variation_user_id_error w)
      /\ percentage (variation_partial_data w)).

(** Step 6: the total error of a group and [quality_delta]. *)
Definition total_error (event_loss id_error partial_data : Q) : Q :=
  event_loss + id_error + partial_data.

Definition quality_delta (w : widgets) : Q :=
  total_error (variation_event_loss w) (variation_user_id_error w)
              (variation_partial_data w)
  - total_error (control_event_loss w) (control_user_id_error w)
                (control_partial_data w).

(** Step 3: the lift of a variation rate over a control rate. *)
Definition ratio_lift (variation_rate control_rate : Q) : Q :=
  (variation_rate / control_rate - 1) * 100.

(** Step 8: the impact of a group at one error rate of the sweep, and the
    rates and the lift it gives. *)
Definition impact (event_loss id_error partial_data : Q) (error_rate : Z) : Q :=
  event_loss / 100 + id_error / 100
  + (inject_Z error_rate / 100) * (partial_data / 100).

Definition control_impact (w : widgets) (error_rate : Z) : Q :=
  impact (control_event_loss w) (control_user_id_error w)
         (control_partial_data w) error_rate.

Definition variation_impact (w : widgets) (error_rate : Z) : Q :=
  impact (variation_event_loss w) (variation_user_id_error w)
         (variation_partial_data w) error_rate.

Definition sweep_control_rate (w : widgets) (error_rate : Z) : Q :=
  baseline_conversion w * (1 - control_impact w error_rate).

Definition sweep_variation_rate (w : widgets) (error_rate : Z) : Q :=
  baseline_conversion w * (1 + expected_lift w / 100)
  * (1 - variation_impact w error_rate).

Definition sweep_observed_lift (w : widgets) (error_rate : Z) : Q :=
  ratio_lift (sweep_variation_rate w error_rate) (sweep_control_rate w error_rate).

(** The error rates of the sweep. *)
Definition sweep_error_rates : list Z := [0; 2; 4; 6; 8; 10; 12; 14; 16; 18; 20]%Z.

(** No point of the sweep has a zero control rate. *)
Definition sweep_defined (w : widgets) : Prop :=
  forall e, In e sweep_error_rates -> ~ sweep_control_rate w e == 0.

(** The three divisors of steps 3 and 5. *)
Definition control_rate (w : widgets) : Q :=
  baseline_conversion w * (1 - control_partial_data w / 100).

Definition control_sample (w : widgets) : Q :=
  inject_Z (sample_size w) / 2 * (1 - control_user_id_error w / 100)
  * (1 - control_event_loss w / 100).

Definition variation_sample (w : widgets) : Q :=
  inject_Z (sample_size w) / 2 * (1 - variation_user_id_error w / 100)
  * (1 - variation_event_loss w / 100).

(** Step 7: the five labels, their severity classes and their conditions,
    as a prioritised rule list. *)
Inductive label : Type :=
| Likely_false_negative
| Potential_false_positive
| Inconclusive
| Likely_valid_result
| Requires_investigation.

Definition label_text (l : label) : string :=
  match l with
  | Likely_false_negative => "Likely false negative"
  | Potential_false_positive => "Potential false positive"
  | Inconclusive => "Inconclusive"
  | Likely_valid_result => "Likely valid result"
  | Requires_investigation => "Requires investigation"
  end.

Definition severity (l : label) : string :=
  match l with
  | Likely_false_negative => "warning"
  | Potential_false_positive => "danger"
  | Inconclusive => "info"
  | Likely_valid_result => "success"
  | Requires_investigation => "warning"
  end.

Definition rule_a (reported_lift expected_lift quality_delta : Q) : bool :=
  Qltb 0 reported_lift && Qltb reported_lift expected_lift && Qltb 5 quality_delta.

Definition rule_b (reported_lift expected_lift quality_delta : Q) : bool :=
  Qltb expected_lift reported_lift && Qltb quality_delta (-5).

Definition rule_c (reported_lift : Q) (detection_threshold : float64) : bool :=
  np_ltb (Fin (Qabs reported_lift)) detection_threshold.

Definition rule_d (reported_lift expected_lift : Q) (detection_threshold : float64)
  : bool :=
  np_ltb (Fin (Qabs (reported_lift - expected_lift)))
         (np_div detection_threshold (Fin 2)).

Fixpoint first_match (rules : list (bool * label)) (otherwise : label) : label :=
  match rules with
  | [] => otherwise
  | (condition, l) :: rest => if condition then l else first_match rest otherwise
  end.

Definition step7 (reported_lift expected_lift quality_delta : Q)
           (detection_threshold : float64) : label :=
  first_match
    [ (rule_a reported_lift expected_lift quality_delta, Likely_false_negative);
      (rule_b reported_lift expected_lift quality_delta, Potential_false_positive);
      (rule_c reported_lift detection_threshold, Inconclusive);
      (rule_d reported_lift expected_lift detection_threshold, Likely_valid_result) ]
    Requires_investigation.

(** The points of the curve: the rows of the chart's four columns. *)
Definition rows (c : chart) : list (Z * Q * Q * bool) :=
  combine (combine (combine (Error_Rate c) (True_Lift c)) (Observed_Lift c))
          (Significant c).

(** Two widget states that differ at most in [segmentation_errors] and
    [timeframe_bias]. *)
Definition same_but_extras (w1 w2 : widgets) : Prop :=
  sample_size w1 = sample_size w2
  /\ baseline_conversion w1 = baseline_conversion w2
  /\ expected_lift w1 = expected_lift w2
  /\ confidence w1 = confidence w2
  /\ control_event_loss w1 = control_event_loss w2
  /\ control_user_id_error w1 = control_user_id_error w2
  /\ control_partial_data w1 = control_partial_data w2
  /\ variation_event_loss w1 = variation_event_loss w2
  /\ variation_user_id_error w1 = variation_user_id_error w2
  /\ variation_partial_data w1 = variation_partial_data w2.

(** What the code's conclusion strings add to the labels. *)
Definition explanation (l : label) : string :=
  match l with
  | Likely_false_negative => " (true effect is being diluted by data quality issues)"
  | Potential_false_positive => " (observed lift is artificially inflated)"
  | Inconclusive => " (effect size is below detection threshold)"
  | Likely_valid_result => " (observed lift matches expected)"
  | Requires_investigation => " (unexpected results)"
  end.

(** Steps 2 to 4: the variation's observed rate, the reported lift and the
    quality score of a group. *)
Definition variation_rate (w : widgets) : Q :=
  baseline_conversion w * (1 + expected_lift w / 100)
  * (1 - variation_partial_data w / 100).

Definition reported_lift (w : widgets) : Q :=
  ratio_lift (variation_rate w) (control_rate w).

Definition quality_score (event_loss id_error partial_data : Q) : Q :=
  100 - (event_loss + id_error + partial_data) / 3.

(** Steps 5 to 8 over the numeric library, and the result they add up to. *)
Section Steps.

Variable sqrt_nonneg : Q -> Q.
Variable norm_ppf : Q -> float64.
Variable norm_cdf : float64 -> float64.

Definition standard_error (observed_rate effective_sample : Q) : float64 :=
  np_sqrt sqrt_nonneg (Fin (observed_rate * (100 - observed_rate) / effective_sample)).

Definition pooled_se (w : widgets) : float64 :=
  let se_control := standard_error (control_rate w) (control_sample w) in
  let se_variation := standard_error (variation_rate w) (variation_sample w) in
  np_sqrt sqrt_nonneg
          (np_add (np_mul se_control se_control) (np_mul se_variation se_variation)).

Definition z_alpha (w : widgets) : float64 :=
  let alpha := inject_Z (100 - confidence w) / 100 in
  norm_ppf (1 - alpha / 2).

Definition step5_power (w : widgets) : float64 :=
  let expected_effect := expected_lift w / 100 * baseline_conversion w in
  let z_score := np_div (Fin expected_effect) (pooled_se w) in
  np_mul (norm_cdf (np_sub z_score (z_alpha w))) (Fin 100).

Definition step5_threshold (w : widgets) : float64 :=
  np_mul (np_mul (z_alpha w) (pooled_se w)) (Fin 2).

Definition step7_label (w : widgets) : label :=
  step7 (reported_lift w) (expected_lift w) (quality_delta w) (step5_threshold w).

Definition step8_flag (w : widgets) (error_rate : Z) : bool :=
  np_gtb (Fin (Qabs (sweep_observed_lift w error_rate))) (step5_threshold w).

(** The result of a call none of whose divisions raises. *)
Definition metrics_of (w : widgets) : metrics :=
  {| effective_sample_size := control_sample w + variation_sample w;
     control_observed_conversion := control_rate w;
     variation_observed_conversion := variation_rate w;
     actual_lift := reported_lift w;
     bias_risk_score :=
       Qabs (quality_score (control_event_loss w) (control_user_id_error w)
                           (control_partial_data w)
             - quality_score (variation_event_loss w) (variation_user_id_error w)
                             (variation_partial_data w));
     stat_power := step5_power w;
     false_positive_risk :=
       if Qltb (quality_delta w) 0 then Qabs (quality_delta w / 5) else 0;
     false_negative_risk :=
       if Qltb 0 (quality_delta w) then quality_delta w / 5 else 0;
     detection_threshold := step5_threshold w;
     conclusion := label_text (step7_label w) ++ explanation (step7_label w);
     conclusion_class := severity (step7_label w);
     chart_data :=
       {| Error_Rate := sweep_error_rates;
          True_Lift := repeat (expected_lift w) 11;
          Observed_Lift := map (sweep_observed_lift w) sweep_error_rates;
          Significant := map (step8_flag w) sweep_error_rates |};
     control_quality_score :=
       quality_score (control_event_loss w) (control_user_id_error w)
                     (control_partial_data w);
     variation_quality_score :=
       quality_score (variation_event_loss w) (variation_user_id_error w)
                     (variation_partial_data w) |}.

End Steps.

(** Every Python division of a call has a non-zero divisor. *)
Definition divisors_nonzero (w : widgets) : Prop :=
  ~ control_rate w == 0
  /\ ~ control_sample w == 0
  /\ ~ variation_sample w == 0
  /\ sweep_defined w.

(** ** Inputs used as examples *)

(** Scenario A: the widgets' default values. *)
Definition scenario_A : widgets :=
  Widgets 10000 10 5 95 2 1 3 5 3 7 4 2.

(** The defaults with the control group's event loss and user-id errors at
    the widgets' maximum, 50. *)
Definition control_at_maximum : widgets :=
  Widgets 10000 10 5 95 50 50 3 5 3 7 4 2.


(** Identical quality profiles, both with event loss and user-id errors at
    the widgets' maximum. *)
Definition both_at_maximum : widgets :=
  Widgets 10000 10 5 95 50 50 3 50 50 3 4 2.

(** A control group whose last sweep point, at error rate 20, has a zero
    rate: 40 + 50 + 20 * 50 / 100 = 100. *)
Definition last_point_zero : widgets :=
  Widgets 10000 10 5 95 40 50 50 5 3 7 4 2.


(** Scenario A with other segmentation errors and timeframe bias. *)
Definition scenario_A_other_extras : widgets :=
  Widgets 10000 10 5 95 2 1 3 5 3 7 10 30.

(** A numeric library to run the examples with: the square root rounded
    down to four decimals, and for [stats.norm.ppf] the table below. *)
Definition sqrt_4_decimals (q : Q) : Q :=
  Z.sqrt (Qnum q * 10 ^ 8 / Zpos (Qden q)) # 10 ^ 4.

(** Modelled from the spec: [stats.norm.ppf] at [1 - alpha / 2], which
    SciPy computes, by the table of step 5 (1.645 for 90%, 1.960 for 95%,
    2.576 for 99%). *)
Definition ppf_table (p : Q) : float64 :=
  if Qeq_bool p 0.95 then Fin 1.645
  else if Qeq_bool p 0.975 then Fin 1.960
  else if Qeq_bool p 0.995 then Fin 2.576
  else NaN.

(** An input whose variation group converts at more than 100%:
    60 * (1 + 100/100) * (1 - 7/100) = 111.6. *)
Definition variation_above_100 : widgets :=
  Widgets 10000 60 100 95 2 1 3 5 3 7 4 2.

(** The defaults with the control group's quality profile in both groups. *)
Definition identical_profiles : widgets :=
  Widgets 10000 10 5 95 2 1 3 2 1 3 4 2.

(** ** The page below the engine

    After [results = calculate_metrics()] the script fills three columns
    of cards, draws the chart and lists recommendations.  The definitions
    below are the values it computes on the way (ratios, bar lengths,
    colours, texts, flags), block by block; the HTML written around them
    and the number formatting of the f-strings are left out. *)

(** [int(x)] on a float: truncation towards zero. *)
Definition py_int (x : Q) : Z := Z.quot (Qnum x) (Zpos (Qden x)).

(** [min(a, b)] and [max(a, b)] on floats: the first argument, unless the
    second is smaller (larger). *)
Definition py_min (a b : Q) : Q := if Qltb b a then b else a.

Definition py_max (a b : Q) : Q := if Qltb a b then b else a.

(** [min(a, x)] with a float [a] and a [numpy.float64] [x]. *)
Definition np_min (a : Q) (x : float64) : float64 :=
  if np_ltb x (Fin a) then x else Fin a.

(** [x <= y] on [numpy.float64]; false as soon as one side is NaN. *)
Definition np_leb (x y : float64) : bool :=
  match x, y with
  | NaN, _ | _, NaN => false
  | Fin a, Fin b => Qle_bool a b
  | NInf, _ | _, PInf => true
  | PInf, _ | Fin _, NInf => false
  end.

Definition np_geb (x y : float64) : bool := np_leb y x.

(** [min(s)] and [max(s)] of a sequence of floats; [None] stands for the
    [ValueError] an empty sequence raises. *)
Fixpoint py_min_from (m : Q) (s : list Q) : Q :=
  match s with
  | [] => m
  | x :: rest => py_min_from (if Qltb x m then x else m) rest
  end.

Definition py_min_seq (s : list Q) : option Q :=
  match s with
  | [] => None
  | x :: rest => Some (py_min_from x rest)
  end.

Fixpoint py_max_from (m : Q) (s : list Q) : Q :=
  match s with
  | [] => m
  | x :: rest => py_max_from (if Qltb m x then x else m) rest
  end.

Definition py_max_seq (s : list Q) : option Q :=
  match s with
  | [] => None
  | x :: rest => Some (py_max_from x rest)
  end.

(** The "Effective Sample Size" card: the number of users shown, the
    length of the progress bar and the percentage under it. *)
Record sample_view : Type := Sample_view {
  users_shown : Z;
  sample_bar : Q;
  sample_percent : Z
}.

Definition effective_sample_card (w : widgets) (results : metrics)
  : result sample_view :=
  let users := py_int (effective_sample_size results) in
  sample_ratio <- py_div (effective_sample_size results) (inject_Z (sample_size w)) ;;
  OK (Sample_view users sample_ratio (py_int (sample_ratio * 100))).

(** The "Observed Conversion" card. *)
Record conversion_view : Type := Conversion_view {
  conversion_bar : Q;
  conversion_percent : Z
}.

Definition observed_conversion_card (w : widgets) (results : metrics)
  : result conversion_view :=
  conversion_ratio <-
    py_div (control_observed_conversion results) (baseline_conversion w) ;;
  OK (Conversion_view (py_min 1 conversion_ratio) (py_int (conversion_ratio * 100))).

(** The "Actual Lift" card.  The text under the bar is either
    [f"{n}% of expected lift"] or a fixed sentence; the bar and the text
    are there only when [expected_lift != 0]. *)
Inductive ratio_text : Type :=
| Percent_of_expected (n : Z)
| Sentence (s : string).

Record lift_view : Type := Lift_view {
  lift_color : string;
  lift_sign : string;
  lift_bar : option (Q * ratio_text)
}.

Definition actual_lift_card (w : widgets) (results : metrics) : result lift_view :=
  let color := if Qltb 0 (actual_lift results) then "green"%string else "red"%string in
  let sign := if Qltb 0 (actual_lift results) then "+"%string else ""%string in
  if negb (Qeq_bool (expected_lift w) 0) then
    quotient <-
      (if Qltb 0 (expected_lift w)
       then py_div (actual_lift results) (expected_lift w)
       else py_div (actual_lift results) (expected_lift w)) ;;
    let lift_ratio := py_min 1 (py_max 0 quotient) in
    text <-
      (if Qltb 0 (expected_lift w) then
         if Qltb 0 (actual_lift results) then
           share <- py_div (actual_lift results) (expected_lift w) ;;
           OK (Percent_of_expected (py_int (share * 100)))
         else OK (Sentence "Negative lift (expected positive)")
       else
         if Qltb (actual_lift results) 0 then
           share <- py_div (actual_lift results) (expected_lift w) ;;
           OK (Percent_of_expected (py_int (share * 100)))
         else OK (Sentence "Positive lift (expected negative)")) ;;
    OK (Lift_view color sign (Some (lift_ratio, text)))
  else OK (Lift_view color sign None).

(** The "Statistical Power" card. *)
Record power_view : Type := Power_view {
  power_color : string;
  power_bar : float64;
  power_text : string
}.

Definition statistical_power_card (results : metrics) : power_view :=
  Power_view
    (if np_geb (stat_power results) (Fin 80) then "green"
     else if np_geb (stat_power results) (Fin 50) then "orange" else "red")
    (np_min 1 (np_div (stat_power results) (Fin 100)))
    (if np_geb (stat_power results) (Fin 80) then "Sufficient power"
     else if np_geb (stat_power results) (Fin 50) then "Borderline power"
          else "Insufficient power").

(** The "Bias Risk Score" card. *)
Record bias_view : Type := Bias_view {
  bias_color : string;
  bias_bar : Q;
  bias_text : string
}.

Definition bias_risk_card (results : metrics) : bias_view :=
  Bias_view
    (if Qltb (bias_risk_score results) 5 then "green"
     else if Qltb (bias_risk_score results) 10 then "orange" else "red")
    (py_min 1 (bias_risk_score results / 20))
    (if Qltb (bias_risk_score results) 5 then "Low risk of bias"
     else if Qltb (bias_risk_score results) 10 then "Moderate risk of bias"
          else "High risk of bias").

(** The domain of the chart's y axis. *)
Definition y_domain (chart_data : chart) : option (Q * Q) :=
  match py_min_seq (Observed_Lift chart_data), py_min_seq (True_Lift chart_data),
        py_max_seq (Observed_Lift chart_data), py_max_seq (True_Lift chart_data) with
  | Some min_observed, Some min_true, Some max_observed, Some max_true =>
      Some (py_min min_observed min_true - 1, py_max max_observed max_true + 1)
  | _, _, _, _ => None
  end.

(** The four recommendations: which of the warnings are written. *)
Record warnings : Type := Warnings {
  asymmetry_warning : bool;
  sample_warning : bool;
  power_warning : bool;
  discrepancy_warning : bool
}.

Definition recommendations (w : widgets) (results : metrics) : result warnings :=
  let asymmetry := Qle_bool 5 (bias_risk_score results) in
  sample_ratio <- py_div (effective_sample_size results) (inject_Z (sample_size w)) ;;
  let sample := Qltb sample_ratio 0.8 in
  let power := np_ltb (stat_power results) (Fin 80) in
  let discrepancy :=
    np_gtb (Fin (Qabs (actual_lift results - expected_lift w)))
           (detection_threshold results) in
  OK (Warnings asymmetry sample power discrepancy).

(** The share of the sample that is kept, whatever the sample size. *)
Definition kept_share (w : widgets) : Q :=
  ((1 - control_user_id_error w / 100) * (1 - control_event_loss w / 100)
   + (1 - variation_user_id_error w / 100) * (1 - variation_event_loss w / 100)) / 2.


(** ** The score and risk lines in binary64

    Lines 149-151, 171-174 and the control rate of the sweep (lines 201
    and 204) of [calculate_metrics] once more, this time on IEEE 754
    doubles with their rounding, as Python evaluates them.  The quality
    widgets are given control group first. *)
Module Doubles.
Import Floats.
Local Open Scope float_scope.

Definition quality_score (event_loss user_id_error partial_data : float) : float :=
  100 - (event_loss + user_id_error + partial_data) / 3.

Definition quality_difference
           (control_event_loss control_user_id_error control_partial_data
            variation_event_loss variation_user_id_error variation_partial_data : float)
  : float :=
  abs (quality_score control_event_loss control_user_id_error control_partial_data
       - quality_score variation_event_loss variation_user_id_error
                       variation_partial_data).

Definition data_quality_impact
           (control_event_loss control_user_id_error control_partial_data
            variation_event_loss variation_user_id_error variation_partial_data : float)
  : float :=
  (variation_event_loss + variation_user_id_error + variation_partial_data)
  - (control_event_loss + control_user_id_error + control_partial_data).

Definition false_positive_risk (data_quality_impact : float) : float :=
  if data_quality_impact <? 0 then abs (data_quality_impact / 5) else 0.

Definition false_negative_risk (data_quality_impact : float) : float :=
  if 0 <? data_quality_impact then data_quality_impact / 5 else 0.

Definition control_observed_rate
           (baseline_conversion control_event_loss control_user_id_error
            control_partial_data error : float) : float :=
  let control_error_impact :=
    control_event_loss / 100 + control_user_id_error / 100
    + (error / 100) * (control_partial_data / 100) in
  baseline_conversion * (1 - control_error_impact).

End Doubles.

(** ** Arithmetic helpers *)

Ltac qconst :=
  unfold Qdiv in *;
  change (/ 100) with (1 # 100) in *;
  change (/ 2) with (1 # 2) in *;
  change (/ 3) with (1 # 3) in *;
  change (/ 5) with (1 # 5) in *.

Lemma Qltb_true (a b : Q) : Qltb a b = true <-> a < b.
Proof.
  unfold Qltb. rewrite negb_true_iff, <- not_true_iff_false, Qle_bool_iff.
  split; [apply Qnot_le_lt | apply Qlt_not_le].
Qed.

Lemma Qltb_false (a b : Q) : Qltb a b = false <-> b <= a.
Proof.
  unfold Qltb. rewrite negb_false_iff. apply Qle_bool_iff.
Qed.

Lemma py_div_OK (a b : Q) : ~ b == 0 -> py_div a b = OK (a / b).
Proof.
  intros Hb. unfold py_div.
  destruct (Qeq_bool b 0) eqn:E; [| reflexivity].
  apply Qeq_bool_iff in E. contradiction.
Qed.

Lemma py_div_zero (a b : Q) : b == 0 -> py_div a b = Raise ZeroDivisionError.
Proof.
  intros Hb. unfold py_div. apply Qeq_bool_iff in Hb. now rewrite Hb.
Qed.

Lemma py_div_OK_inv (a b q : Q) : py_div a b = OK q -> ~ b == 0 /\ q = a / b.
Proof.
  unfold py_div. destruct (Qeq_bool b 0) eqn:E; [discriminate |].
  intros H. injection H as <-. split; [| reflexivity].
  intros Hb. apply Qeq_bool_iff in Hb. congruence.
Qed.

Lemma bind_OK_inv {A B : Type} (m : result A) (k : A -> result B) (b : B) :
  bind m k = OK b -> exists a, m = OK a /\ k a = OK b.
Proof.
  destruct m as [a | e]; simpl; [| discriminate]. intros H. now exists a.
Qed.

Lemma py_range_sweep : py_range 0 21 2 = sweep_error_rates.
Proof. reflexivity. Qed.

(** ** Valid inputs keep the divisors of steps 3 and 5 away from zero *)

Lemma inject_Z_pos (n : Z) : (0 < n)%Z -> 0 < inject_Z n.
Proof.
  intros H. change 0 with (inject_Z 0). now rewrite <- Zlt_Qlt.
Qed.

Lemma kept_fraction (x : Q) : percentage x -> 0 < 1 - x / 100 /\ 1 - x / 100 <= 1.
Proof.
  intros [H0 H1]. qconst. split; lra.
Qed.

Lemma attrition_bounds (n x y : Q) :
  0 < n -> percentage x -> percentage y ->
  0 < n * (1 - x / 100) * (1 - y / 100) /\ n * (1 - x / 100) * (1 - y / 100) <= n.
Proof.
  intros Hn Hx Hy.
  destruct (kept_fraction x Hx) as [Hx0 Hx1].
  destruct (kept_fraction y Hy) as [Hy0 Hy1].
  set (a := 1 - x / 100) in *. set (b := 1 - y / 100) in *.
  assert (Hna : 0 < n * a) by nra.
  assert (Hna1 : n * a <= n) by nra.
  split; nra.
Qed.

Lemma valid_control_rate (w : widgets) : valid w -> 0 < control_rate w.
Proof.
  intros (_ & [Hb _] & _ & _ & (_ & _ & Hp) & _).
  unfold control_rate. destruct (kept_fraction _ Hp) as [H0 _].
  set (a := 1 - control_partial_data w / 100) in *. nra.
Qed.

Lemma valid_control_sample (w : widgets) :
  valid w -> 0 < control_sample w /\ control_sample w <= inject_Z (sample_size w) / 2.
Proof.
  intros (Hn & _ & _ & _ & (He & Hi & _) & _).
  apply attrition_bounds; auto.
  apply inject_Z_pos in Hn. qconst. lra.
Qed.

Lemma valid_variation_sample (w : widgets) :
  valid w -> 0 < variation_sample w /\ variation_sample w <= inject_Z (sample_size w) / 2.
Proof.
  intros (Hn & _ & _ & _ & _ & (He & Hi & _)).
  apply attrition_bounds; auto.
  apply inject_Z_pos in Hn. qconst. lra.
Qed.

Ltac projections :=
  cbn [sample_size baseline_conversion expected_lift confidence
       control_event_loss control_user_id_error control_partial_data
       variation_event_loss variation_user_id_error variation_partial_data
       segmentation_errors timeframe_bias] in *.

Ltac fields :=
  unfold metrics_of;
  cbn [effective_sample_size control_observed_conversion
       variation_observed_conversion actual_lift bias_risk_score stat_power
       false_positive_risk false_negative_risk detection_threshold conclusion
       conclusion_class chart_data control_quality_score
       variation_quality_score Error_Rate True_Lift Observed_Lift Significant].

(** ** The engine, run *)

Section Run.

Variable sqrt_nonneg : Q -> Q.
Variable norm_ppf : Q -> float64.
Variable norm_cdf : float64 -> float64.

Local Abbreviation run := (calculate_metrics sqrt_nonneg norm_ppf norm_cdf).

(** One turn of the loop returns exactly when its control rate is not
    zero, and then gives the sweep formula's lift and flag. *)
Lemma sweep_step_OK (w : widgets) (mde : float64) (e : Z) :
  ~ sweep_control_rate w e == 0 ->
  sweep_step w mde e
  = OK (sweep_observed_lift w e,
        np_gtb (Fin (Qabs (sweep_observed_lift w e))) mde).
Proof.
  destruct w. intros H. unfold sweep_step.
  rewrite py_div_OK by exact H. reflexivity.
Qed.

Lemma sweep_step_zero (w : widgets) (mde : float64) (e : Z) :
  sweep_control_rate w e == 0 ->
  sweep_step w mde e = Raise ZeroDivisionError.
Proof.
  destruct w. intros H. unfold sweep_step.
  rewrite py_div_zero by exact H. reflexivity.
Qed.

Lemma sweep_step_OK_inv (w : widgets) (mde : float64) (e : Z) (p : Q * bool) :
  sweep_step w mde e = OK p ->
  ~ sweep_control_rate w e == 0
  /\ p = (sweep_observed_lift w e,
          np_gtb (Fin (Qabs (sweep_observed_lift w e))) mde).
Proof.
  intros H.
  assert (Hnz : ~ sweep_control_rate w e == 0).
  { intros Hz. rewrite (sweep_step_zero w mde e Hz) in H. discriminate. }
  split; [exact Hnz |].
  rewrite (sweep_step_OK w mde e Hnz) in H. congruence.
Qed.

(** The loop appends one lift and one flag per error rate, in order. *)
Lemma sweep_OK (w : widgets) (mde : float64) (es : list Z) :
  forall (ls : list Q) (fs : list bool),
    (forall e, In e es -> ~ sweep_control_rate w e == 0) ->
    sweep w mde es ls fs
    = OK (ls ++ map (sweep_observed_lift w) es,
          fs ++ map (fun e => np_gtb (Fin (Qabs (sweep_observed_lift w e))) mde) es).
Proof.
  induction es as [| e es IH]; intros ls fs Hnz; simpl.
  - now rewrite !app_nil_r.
  - rewrite sweep_step_OK by (apply Hnz; now left). simpl.
    rewrite IH by (intros e' He'; apply Hnz; now right).
    now rewrite <- !app_assoc.
Qed.

Lemma sweep_OK_inv (w : widgets) (mde : float64) (es : list Z) :
  forall (ls : list Q) (fs : list bool) (columns : list Q * list bool),
    sweep w mde es ls fs = OK columns ->
    forall e, In e es -> ~ sweep_control_rate w e == 0.
Proof.
  induction es as [| e es IH]; intros ls fs columns H e' He'; simpl in *.
  - contradiction.
  - apply bind_OK_inv in H. destruct H as (p & Hp & H).
    destruct He' as [<- | He'].
    + now apply sweep_step_OK_inv in Hp.
    + eapply IH; eauto.
Qed.

(** When no divisor is zero the call returns, and returns the result the
    steps of the specification describe. *)
Lemma run_OK (w : widgets) :
  divisors_nonzero w ->
  run w = OK (metrics_of sqrt_nonneg norm_ppf norm_cdf w).
Proof.
  intros (Hr & Hc & Hv & Hs).
  unfold calculate_metrics, metrics_of, step7_label, step8_flag,
    step5_power, step5_threshold, z_alpha, pooled_se, standard_error,
    reported_lift, ratio_lift, variation_rate, quality_delta, total_error,
    quality_score, sweep_defined, control_rate, control_sample,
    variation_sample in *.
  destruct w. projections.
  rewrite (py_div_OK _ _ Hr). unfold bind at 1.
  rewrite (py_div_OK _ _ Hc). unfold bind at 1.
  rewrite (py_div_OK _ _ Hv). unfold bind at 1.
  rewrite py_range_sweep.
  rewrite (sweep_OK _ _ _ _ _ Hs). unfold bind at 1.
  cbn [fst snd app]. unfold step7, first_match, rule_a, rule_b, rule_c, rule_d.
  repeat match goal with
         | |- context [if ?c then (_, _) else _] => destruct c
         end; reflexivity.
Qed.

(** Conversely, a call that returns had no zero divisor. *)
Lemma run_OK_inv (w : widgets) (r : metrics) :
  run w = OK r ->
  divisors_nonzero w /\ r = metrics_of sqrt_nonneg norm_ppf norm_cdf w.
Proof.
  intros H.
  assert (Hd : divisors_nonzero w).
  { unfold calculate_metrics, divisors_nonzero, sweep_defined,
      control_rate, control_sample, variation_sample in *.
    destruct w. projections. cbv zeta in H.
    apply bind_OK_inv in H. destruct H as (q1 & H1 & H).
    apply bind_OK_inv in H. destruct H as (q2 & H2 & H).
    apply bind_OK_inv in H. destruct H as (q3 & H3 & H).
    apply bind_OK_inv in H. destruct H as (cols & H4 & _).
    apply py_div_OK_inv in H1, H2, H3.
    rewrite py_range_sweep in H4.
    repeat split; try tauto.
    exact (sweep_OK_inv _ _ _ _ _ _ H4). }
  split; [exact Hd |].
  rewrite (run_OK w Hd) in H. congruence.
Qed.

(** A zero divisor makes the call raise [ZeroDivisionError]. *)
Lemma run_raises (w : widgets) :
  ~ divisors_nonzero w -> run w = Raise ZeroDivisionError.
Proof.
  intros Hn. destruct (run w) as [m | []] eqn:E; [| reflexivity].
  exfalso. apply Hn. now apply run_OK_inv in E.
Qed.

Lemma valid_divisors (w : widgets) :
  valid w -> sweep_defined w -> divisors_nonzero w.
Proof.
  intros Hv Hs.
  pose proof (valid_control_rate w Hv).
  pose proof (valid_control_sample w Hv) as [? _].
  pose proof (valid_variation_sample w Hv) as [? _].
  repeat split; try exact Hs; intros Hz; rewrite Hz in *; lra.
Qed.

End Run.

(** ** Example inputs, checked *)

Ltac nonzero_by_computation :=
  let H := fresh in intros H; vm_compute in H; discriminate H.

Lemma scenario_A_valid : valid scenario_A.
Proof.
  unfold valid, percentage, scenario_A. projections.
  repeat split; try lia; try lra.
Qed.

Lemma scenario_A_sweep_defined : sweep_defined scenario_A.
Proof.
  intros e He. simpl in He.
  repeat (destruct He as [<- | He]; [nonzero_by_computation |]).
  contradiction.
Qed.

Lemma control_at_maximum_valid : valid control_at_maximum.
Proof.
  unfold valid, percentage, control_at_maximum. projections.
  repeat split; try lia; try lra.
Qed.

Lemma control_at_maximum_undefined : ~ divisors_nonzero control_at_maximum.
Proof.
  intros (_ & _ & _ & Hs). apply (Hs 0%Z); [now left | reflexivity].
Qed.



Lemma both_at_maximum_valid : valid both_at_maximum.
Proof.
  unfold valid, percentage, both_at_maximum. projections.
  repeat split; try lia; try lra.
Qed.

Lemma both_at_maximum_undefined : ~ divisors_nonzero both_at_maximum.
Proof.
  intros (_ & _ & _ & Hs). apply (Hs 0%Z); [now left | reflexivity].
Qed.

Lemma last_point_zero_valid : valid last_point_zero.
Proof.
  unfold valid, percentage, last_point_zero. projections.
  repeat split; try lia; try lra.
Qed.

Lemma last_point_zero_undefined : ~ divisors_nonzero last_point_zero.
Proof.
  intros (_ & _ & _ & Hs). apply (Hs 20%Z); [simpl; tauto | reflexivity].
Qed.

(** ** Rules and ratios *)

Lemma rule_a_iff (x e d : Q) : rule_a x e d = true <-> 0 < x /\ x < e /\ 5 < d.
Proof.
  unfold rule_a. rewrite !andb_true_iff, !Qltb_true. tauto.
Qed.

Lemma rule_b_iff (x e d : Q) : rule_b x e d = true <-> e < x /\ d < -5.
Proof.
  unfold rule_b. rewrite !andb_true_iff, !Qltb_true. tauto.
Qed.

(** A label is a prefix of the conclusion string of that label only. *)
Lemma label_of_conclusion (l l' : label) :
  prefix (label_text l') (label_text l ++ explanation l) = true <-> l' = l.
Proof.
  split.
  - destruct l, l'; intros H; try reflexivity; vm_compute in H; discriminate H.
  - intros ->. destruct l; reflexivity.
Qed.

Lemma ratio_lift_eq_iff (n1 d1 n2 d2 : Q) :
  ~ d1 == 0 -> ~ d2 == 0 ->
  (ratio_lift n1 d1 == ratio_lift n2 d2 <-> n1 * d2 == n2 * d1).
Proof.
  intros H1 H2. unfold ratio_lift. split; intros H.
  - assert (Hq : n1 / d1 == n2 / d2) by lra.
    setoid_replace (n1 * d2) with (n1 / d1 * (d1 * d2)) by (field; exact H1).
    rewrite Hq. field. exact H2.
  - assert (Hq : n1 / d1 == n2 / d2).
    { setoid_replace (n1 / d1) with (n1 * d2 / (d1 * d2)) by (field; tauto).
      rewrite H. field. tauto. }
    rewrite Hq. reflexivity.
Qed.

(** ** The claims of the specification *)

Section Claims.

Variable sqrt_nonneg : Q -> Q.
Variable norm_ppf : Q -> float64.
Variable norm_cdf : float64 -> float64.

Local Abbreviation run := (calculate_metrics sqrt_nonneg norm_ppf norm_cdf).

(** C1 (amended).  For every valid input none of whose sweep points has
    a zero control rate, the call returns a result whose
    [effective_sample_size] is the sum over the two groups of
    [sample_size / 2 * (1 - id_error/100) * (1 - event_loss/100)], whose
    observed conversions are
    [baseline_conversion * (1 - control.partial_data/100)] and
    [baseline_conversion * (1 + expected_lift/100) * (1 - variation.partial_data/100)],
    whose control conversion is not zero and whose [actual_lift] is
    [(variation_observed / control_observed - 1) * 100]. *)
Theorem C1_sample_rates_and_lift (w : widgets) :
  valid w -> sweep_defined w ->
  exists r, run w = OK r
    /\ effective_sample_size r
       == inject_Z (sample_size w) / 2
          * (1 - control_user_id_error w / 100) * (1 - control_event_loss w / 100)
          + inject_Z (sample_size w) / 2
            * (1 - variation_user_id_error w / 100)
            * (1 - variation_event_loss w / 100)
    /\ control_observed_conversion r
       == baseline_conversion w * (1 - control_partial_data w / 100)
    /\ variation_observed_conversion r
       == baseline_conversion w * (1 + expected_lift w / 100)
          * (1 - variation_partial_data w / 100)
    /\ ~ control_observed_conversion r == 0
    /\ actual_lift r
       == (variation_observed_conversion r / control_observed_conversion r - 1) * 100.
Proof.
  intros Hv Hs.
  exists (metrics_of sqrt_nonneg norm_ppf norm_cdf w).
  split; [exact (run_OK _ _ _ w (valid_divisors w Hv Hs)) |].
  fields. repeat split; try reflexivity.
  pose proof (valid_control_rate w Hv) as H. intros Hz. rewrite Hz in H. lra.
Qed.

(** C5 (amended).  For every valid input none of whose sweep points has
    a zero control rate, the call returns a result in which
    [false_positive_risk] is [|quality_delta| / 5] when [quality_delta]
    is negative and 0 otherwise, and [false_negative_risk] is
    [quality_delta / 5] when [quality_delta] is positive and 0 otherwise;
    when the two groups have the same quality profile,
    [bias_risk_score] and both risks are 0. *)
Theorem C5_decision_risks (w : widgets) :
  valid w -> sweep_defined w ->
  exists r, run w = OK r
    /\ (quality_delta w < 0 -> false_positive_risk r == Qabs (quality_delta w) / 5)
    /\ (~ quality_delta w < 0 -> false_positive_risk r == 0)
    /\ (0 < quality_delta w -> false_negative_risk r == quality_delta w / 5)
    /\ (~ 0 < quality_delta w -> false_negative_risk r == 0)
    /\ (control_event_loss w == variation_event_loss w ->
        control_user_id_error w == variation_user_id_error w ->
        control_partial_data w == variation_partial_data w ->
        bias_risk_score r == 0
        /\ false_positive_risk r == 0
        /\ false_negative_risk r == 0).
Proof.
  intros Hv Hs.
  exists (metrics_of sqrt_nonneg norm_ppf norm_cdf w).
  split; [exact (run_OK _ _ _ w (valid_divisors w Hv Hs)) |].
  fields. repeat split.
  - intros H. apply Qltb_true in H. rewrite H.
    unfold Qdiv. rewrite Qabs_Qmult. reflexivity.
  - intros H. destruct (Qltb (quality_delta w) 0) eqn:E; [| reflexivity].
    apply Qltb_true in E. contradiction.
  - intros H. apply Qltb_true in H. rewrite H. reflexivity.
  - intros H. destruct (Qltb 0 (quality_delta w)) eqn:E; [| reflexivity].
    apply Qltb_true in E. contradiction.
  - unfold quality_score. rewrite H, H0, H1.
    setoid_replace
      (100 - (variation_event_loss w + variation_user_id_error w
              + variation_partial_data w) / 3
       - (100 - (variation_event_loss w + variation_user_id_error w
                 + variation_partial_data w) / 3))
      with 0 by ring.
    reflexivity.
  - assert (Hq : quality_delta w == 0)
      by (unfold quality_delta, total_error; rewrite H, H0, H1; ring).
    destruct (Qltb (quality_delta w) 0) eqn:E; [| reflexivity].
    apply Qltb_true in E. rewrite Hq in E. lra.
  - assert (Hq : quality_delta w == 0)
      by (unfold quality_delta, total_error; rewrite H, H0, H1; ring).
    destruct (Qltb 0 (quality_delta w)) eqn:E; [| reflexivity].
    apply Qltb_true in E. rewrite Hq in E. lra.
Qed.

(** C7 (amended).  For every valid input none of whose sweep points has
    a zero control rate, the call returns a result with
    [0 < effective_sample_size <= sample_size] and both quality scores
    in [[0, 100]]. *)
Theorem C7_sample_and_score_bounds (w : widgets) :
  valid w -> sweep_defined w ->
  exists r, run w = OK r
    /\ (0 < effective_sample_size r
        /\ effective_sample_size r <= inject_Z (sample_size w))
    /\ (0 <= control_quality_score r /\ control_quality_score r <= 100)
    /\ (0 <= variation_quality_score r /\ variation_quality_score r <= 100).
Proof.
  intros Hv Hs.
  exists (metrics_of sqrt_nonneg norm_ppf norm_cdf w).
  split; [exact (run_OK _ _ _ w (valid_divisors w Hv Hs)) |].
  fields.
  pose proof (valid_control_sample w Hv) as [Hc0 Hc1].
  pose proof (valid_variation_sample w Hv) as [Hv0 Hv1].
  destruct Hv as (_ & _ & _ & _ & ([? ?] & [? ?] & [? ?]) & ([? ?] & [? ?] & [? ?])).
  unfold quality_score. qconst. repeat split; lra.
Qed.



(** C3 (amended).  For every valid input none of whose sweep points has
    a zero control rate, the call returns a curve of exactly 11 points
    whose error rates are 0, 2, ..., 20 in this order; the point at
    error rate [e] has the expected lift as its true lift, the lift of
    the sweep formula as its observed lift, and is significant exactly
    when the absolute value of that lift exceeds the result's
    [detection_threshold], the one value [z_alpha * pooled_se * 2]. *)
Theorem C3_curve_points (w : widgets) :
  valid w -> sweep_defined w ->
  exists r, run w = OK r
    /\ detection_threshold r
       = np_mul (np_mul (z_alpha norm_ppf w) (pooled_se sqrt_nonneg w)) (Fin 2)
    /\ Error_Rate (chart_data r) = [0; 2; 4; 6; 8; 10; 12; 14; 16; 18; 20]%Z
    /\ List.length (True_Lift (chart_data r)) = 11%nat
    /\ List.length (Observed_Lift (chart_data r)) = 11%nat
    /\ List.length (Significant (chart_data r)) = 11%nat
    /\ List.length (rows (chart_data r)) = 11%nat
    /\ rows (chart_data r)
       = map (fun e =>
                (e, expected_lift w, sweep_observed_lift w e,
                 np_gtb (Fin (Qabs (sweep_observed_lift w e)))
                        (detection_threshold r)))
             [0; 2; 4; 6; 8; 10; 12; 14; 16; 18; 20]%Z.
Proof.
  intros Hv Hs.
  exists (metrics_of sqrt_nonneg norm_ppf norm_cdf w).
  split; [exact (run_OK _ _ _ w (valid_divisors w Hv Hs)) |].
  fields. repeat split; reflexivity.
Qed.

(** C4 (amended).  On scenario A the call returns
    [effective_sample_size = 9458.5], [control_observed_conversion = 9.70],
    [variation_observed_conversion = 9.765], [actual_lift = 65/97]
    (about +0.67%), [bias_risk_score = 3] and, whatever the detection
    threshold, the conclusion "Likely false negative" with class
    "warning": rule (a) holds there and comes before rule (c). *)
Theorem C4_scenario_A_values :
  exists r, run scenario_A = OK r
    /\ effective_sample_size r == 9458.5
    /\ control_observed_conversion r == 9.70
    /\ variation_observed_conversion r == 9.765
    /\ actual_lift r == 65 # 97
    /\ bias_risk_score r == 3
    /\ conclusion r
       = "Likely false negative (true effect is being diluted by data quality issues)"%string
    /\ conclusion_class r = "warning"%string.
Proof.
  exists (metrics_of sqrt_nonneg norm_ppf norm_cdf scenario_A).
  split.
  { exact (run_OK _ _ _ _
             (valid_divisors _ scenario_A_valid scenario_A_sweep_defined)). }
  fields.
  assert (Ha : rule_a (reported_lift scenario_A) (expected_lift scenario_A)
                      (quality_delta scenario_A) = true) by (vm_compute; reflexivity).
  unfold step7_label, step7, first_match. rewrite Ha.
  repeat split; vm_compute; reflexivity.
Qed.

(** C6 (amended).  For every valid input none of whose sweep points has
    a zero control rate, the curve's point at error rate 0 has the
    observed lift
    [((1 + expected_lift/100) * (1 - (variation.event_loss/100 + variation.id_error/100))
      / (1 - (control.event_loss/100 + control.id_error/100)) - 1) * 100],
    in which neither group's [partial_data] takes part; it coincides
    with [actual_lift] exactly when
    [(1 + expected_lift/100) * (1 - (variation.event_loss/100 + variation.id_error/100))
     * (1 - control.partial_data/100)]
    equals
    [(1 + expected_lift/100) * (1 - variation.partial_data/100)
     * (1 - (control.event_loss/100 + control.id_error/100))]. *)
Theorem C6_sweep_at_zero (w : widgets) :
  valid w -> sweep_defined w ->
  exists r, run w = OK r
    /\ nth_error (Error_Rate (chart_data r)) 0 = Some 0%Z
    /\ exists x, nth_error (Observed_Lift (chart_data r)) 0 = Some x
       /\ x == ((1 + expected_lift w / 100)
                * (1 - (variation_event_loss w / 100 + variation_user_id_error w / 100))
                / (1 - (control_event_loss w / 100 + control_user_id_error w / 100))
                - 1) * 100
       /\ (x == actual_lift r
           <-> (1 + expected_lift w / 100)
               * (1 - (variation_event_loss w / 100 + variation_user_id_error w / 100))
               * (1 - control_partial_data w / 100)
               == (1 + expected_lift w / 100)
                  * (1 - variation_partial_data w / 100)
                  * (1 - (control_event_loss w / 100 + control_user_id_error w / 100))).
Proof.
  intros Hv Hs.
  exists (metrics_of sqrt_nonneg norm_ppf norm_cdf w).
  split; [exact (run_OK _ _ _ w (valid_divisors w Hv Hs)) |].
  fields. split; [reflexivity |].
  exists (sweep_observed_lift w 0). split; [reflexivity |].
  pose proof (valid_control_rate w Hv) as Hc.
  assert (Hc0 : ~ control_rate w == 0) by (intros Hz; rewrite Hz in Hc; lra).
  assert (Hs0 : ~ sweep_control_rate w 0 == 0) by (apply Hs; now left).
  destruct Hv as (_ & [Hb _] & _).
  assert (Hb0 : ~ baseline_conversion w == 0) by (intros Hz; rewrite Hz in Hb; lra).
  unfold reported_lift, sweep_observed_lift.
  unfold sweep_control_rate, sweep_variation_rate, control_impact, variation_impact,
    impact, variation_rate, control_rate in *.
  set (z := inject_Z 0 / 100) in *.
  assert (Hz0 : z == 0) by reflexivity.
  set (B := baseline_conversion w) in *.
  set (a := 1 + expected_lift w / 100).
  set (ve := variation_event_loss w / 100) in *.
  set (vi := variation_user_id_error w / 100) in *.
  set (vp := variation_partial_data w / 100) in *.
  set (ce := control_event_loss w / 100) in *.
  set (ci := control_user_id_error w / 100) in *.
  set (cp := control_partial_data w / 100) in *.
  assert (Hq : ~ 1 - (ce + ci) == 0).
  { intros Hz. apply Hs0. rewrite Hz0.
    setoid_replace (B * (1 - (ce + ci + 0 * cp))) with (B * (1 - (ce + ci))) by ring.
    rewrite Hz. ring. }
  split.
  - unfold ratio_lift. rewrite Hz0. field. split; [exact Hq | exact Hb0].
  - rewrite ratio_lift_eq_iff by assumption. rewrite Hz0. split; intros H.
    + assert (HB : B * B * (a * (1 - (ve + vi)) * (1 - cp)
                            - a * (1 - vp) * (1 - (ce + ci))) == 0).
      { setoid_replace
          (B * B * (a * (1 - (ve + vi)) * (1 - cp) - a * (1 - vp) * (1 - (ce + ci))))
          with (B * a * (1 - (ve + vi + 0 * vp)) * (B * (1 - cp))
                - B * a * (1 - vp) * (B * (1 - (ce + ci + 0 * cp)))) by ring.
        rewrite H. ring. }
      apply Qmult_integral in HB. destruct HB as [HB | HB].
      * apply Qmult_integral in HB. tauto.
      * lra.
    + setoid_replace (B * a * (1 - (ve + vi + 0 * vp)) * (B * (1 - cp)))
        with (B * B * (a * (1 - (ve + vi)) * (1 - cp))) by ring.
      rewrite H. ring.
Qed.


(** C9.  Two inputs that differ at most in [segmentation_errors] and
    [timeframe_bias] have the same outcome: the same result, field for
    field, or the same exception. *)
Theorem C9_extras_are_inert (w1 w2 : widgets) :
  same_but_extras w1 w2 -> run w1 = run w2.
Proof.
  destruct w1, w2. unfold same_but_extras. projections.
  intros (-> & -> & -> & -> & -> & -> & -> & -> & -> & ->).
  reflexivity.
Qed.

End Claims.

(** ** The claims at concrete inputs *)


Lemma C1_scenario_A :
  valid scenario_A /\ sweep_defined scenario_A
  /\ forall sq ppf cdf, exists r,
       calculate_metrics sq ppf cdf scenario_A = OK r
       /\ effective_sample_size r == 9458.5
       /\ control_observed_conversion r == 9.7
       /\ variation_observed_conversion r == 9.765
       /\ actual_lift r == (9.765 / 9.7 - 1) * 100.
Proof.
  split; [exact scenario_A_valid |]. split; [exact scenario_A_sweep_defined |].
  intros sq ppf cdf.
  destruct (C1_sample_rates_and_lift sq ppf cdf scenario_A
              scenario_A_valid scenario_A_sweep_defined)
    as (r & Hr & He & Hc & Hv & _ & Hl).
  exists r. split; [exact Hr |].
  rewrite Hl, He, Hc, Hv. repeat split; vm_compute; reflexivity.
Defined.

Lemma C1_raises_on_a_valid_input :
  valid control_at_maximum
  /\ ~ control_rate control_at_maximum == 0
  /\ forall sq ppf cdf,
       calculate_metrics sq ppf cdf control_at_maximum = Raise ZeroDivisionError.
Proof.
  split; [exact control_at_maximum_valid |]. split.
  - nonzero_by_computation.
  - intros sq ppf cdf. apply run_raises. exact control_at_maximum_undefined.
Qed.



Lemma C3_scenario_A :
  valid scenario_A /\ sweep_defined scenario_A
  /\ forall cdf, exists r,
       calculate_metrics sqrt_4_decimals ppf_table cdf scenario_A = OK r
       /\ List.length (rows (chart_data r)) = 11%nat
       /\ map (fun p => fst (fst (fst p))) (rows (chart_data r))
          = [0; 2; 4; 6; 8; 10; 12; 14; 16; 18; 20]%Z
       /\ map snd (rows (chart_data r)) = repeat false 11.
Proof.
  split; [exact scenario_A_valid |]. split; [exact scenario_A_sweep_defined |].
  intros cdf.
  destruct (C3_curve_points sqrt_4_decimals ppf_table cdf scenario_A
              scenario_A_valid scenario_A_sweep_defined)
    as (r & Hr & Ht & _ & _ & _ & _ & Hn & Hrows).
  exists r. split; [exact Hr |]. split; [exact Hn |].
  rewrite Hrows, Ht. split; vm_compute; reflexivity.
Defined.

Lemma C3_no_curve_on_a_valid_input :
  valid last_point_zero
  /\ sweep_control_rate last_point_zero 20 == 0
  /\ forall sq ppf cdf,
       calculate_metrics sq ppf cdf last_point_zero = Raise ZeroDivisionError.
Proof.
  split; [exact last_point_zero_valid |]. split; [reflexivity |].
  intros sq ppf cdf. apply run_raises. exact last_point_zero_undefined.
Qed.

Lemma C4_scenario_A_is_not_as_claimed :
  valid scenario_A
  /\ (forall sq ppf cdf, exists r,
        calculate_metrics sq ppf cdf scenario_A = OK r
        /\ effective_sample_size r == 9458.5
        /\ ~ Qabs (effective_sample_size r - 9611) <= 5
        /\ variation_observed_conversion r == 9.765
        /\ ~ Qabs (variation_observed_conversion r - 9.7545) <= 0.001
        /\ ~ Qabs (actual_lift r - 0.56) <= 0.1
        /\ bias_risk_score r == 3
        /\ ~ bias_risk_score r == 4
        /\ prefix "Inconclusive" (conclusion r) = false)
  /\ (forall cdf, exists r,
        calculate_metrics sqrt_4_decimals ppf_table cdf scenario_A = OK r
        /\ np_ltb (Fin (Qabs (actual_lift r))) (detection_threshold r) = true
        /\ prefix "Inconclusive" (conclusion r) = false).
Proof.
  assert (Hd : divisors_nonzero scenario_A)
    by exact (valid_divisors _ scenario_A_valid scenario_A_sweep_defined).
  assert (Ha : rule_a (reported_lift scenario_A) (expected_lift scenario_A)
                      (quality_delta scenario_A) = true) by (vm_compute; reflexivity).
  split; [exact scenario_A_valid |]. split.
  - intros sq ppf cdf. eexists. split; [exact (run_OK sq ppf cdf _ Hd) |].
    fields. unfold step7_label, step7, first_match. rewrite Ha.
    repeat split; try (vm_compute; reflexivity);
      intros H; vm_compute in H; try discriminate H; now apply H.
  - intros cdf. eexists.
    split; [exact (run_OK sqrt_4_decimals ppf_table cdf _ Hd) |].
    fields. unfold step7_label, step7, first_match. rewrite Ha.
    split; vm_compute; reflexivity.
Qed.

Lemma C5_scenario_A :
  valid scenario_A /\ sweep_defined scenario_A
  /\ forall sq ppf cdf, exists r,
       calculate_metrics sq ppf cdf scenario_A = OK r
       /\ false_positive_risk r == 0
       /\ false_negative_risk r == 9 # 5.
Proof.
  split; [exact scenario_A_valid |]. split; [exact scenario_A_sweep_defined |].
  intros sq ppf cdf.
  destruct (C5_decision_risks sq ppf cdf scenario_A
              scenario_A_valid scenario_A_sweep_defined)
    as (r & Hr & _ & Hp & Hn & _).
  exists r. split; [exact Hr |]. split.
  - apply Hp. intros H. vm_compute in H. discriminate H.
  - rewrite Hn by reflexivity. reflexivity.
Defined.

Lemma C5_no_risks_on_identical_profiles :
  valid both_at_maximum
  /\ (control_event_loss both_at_maximum = variation_event_loss both_at_maximum
      /\ control_user_id_error both_at_maximum = variation_user_id_error both_at_maximum
      /\ control_partial_data both_at_maximum = variation_partial_data both_at_maximum)
  /\ forall sq ppf cdf,
       calculate_metrics sq ppf cdf both_at_maximum = Raise ZeroDivisionError.
Proof.
  split; [exact both_at_maximum_valid |]. split; [repeat split |].
  intros sq ppf cdf. apply run_raises. exact both_at_maximum_undefined.
Qed.

Lemma C6_scenario_A :
  valid scenario_A /\ sweep_defined scenario_A
  /\ forall sq ppf cdf, exists r,
       calculate_metrics sq ppf cdf scenario_A = OK r
       /\ exists x, nth_error (Observed_Lift (chart_data r)) 0 = Some x
          /\ x == ((1 + 5 / 100) * (1 - (5 / 100 + 3 / 100)) / (1 - (2 / 100 + 1 / 100)) - 1)
                  * 100.
Proof.
  split; [exact scenario_A_valid |]. split; [exact scenario_A_sweep_defined |].
  intros sq ppf cdf.
  destruct (C6_sweep_at_zero sq ppf cdf scenario_A
              scenario_A_valid scenario_A_sweep_defined)
    as (r & Hr & _ & x & Hx & Hv & _).
  exists r. split; [exact Hr |]. exists x. split; [exact Hx |]. exact Hv.
Defined.

Lemma C6_first_point_differs_from_actual_lift :
  valid scenario_A
  /\ forall sq ppf cdf, exists r,
       calculate_metrics sq ppf cdf scenario_A = OK r
       /\ nth_error (Error_Rate (chart_data r)) 0 = Some 0%Z
       /\ exists x, nth_error (Observed_Lift (chart_data r)) 0 = Some x
          /\ x == - 40 # 97
          /\ actual_lift r == 65 # 97
          /\ ~ x == actual_lift r.
Proof.
  split; [exact scenario_A_valid |].
  intros sq ppf cdf. eexists. split.
  { exact (run_OK sq ppf cdf _
             (valid_divisors _ scenario_A_valid scenario_A_sweep_defined)). }
  fields. split; [reflexivity |]. eexists. split; [reflexivity |].
  repeat split; try (vm_compute; reflexivity).
  intros H. vm_compute in H. discriminate H.
Qed.

Lemma C7_scenario_A :
  valid scenario_A /\ sweep_defined scenario_A
  /\ forall sq ppf cdf, exists r,
       calculate_metrics sq ppf cdf scenario_A = OK r
       /\ 0 < effective_sample_size r
       /\ effective_sample_size r <= 10000
       /\ control_quality_score r <= 100
       /\ variation_quality_score r <= 100.
Proof.
  split; [exact scenario_A_valid |]. split; [exact scenario_A_sweep_defined |].
  intros sq ppf cdf.
  destruct (C7_sample_and_score_bounds sq ppf cdf scenario_A
              scenario_A_valid scenario_A_sweep_defined)
    as (r & Hr & [H0 H1] & [_ Hc] & [_ Hv]).
  exists r. repeat split; assumption.
Defined.

Lemma C7_no_result_on_a_valid_input :
  ((0 < sample_size control_at_maximum)%Z
   /\ percentage (control_event_loss control_at_maximum)
   /\ percentage (control_user_id_error control_at_maximum)
   /\ percentage (control_partial_data control_at_maximum)
   /\ percentage (variation_event_loss control_at_maximum)
   /\ percentage (variation_user_id_error control_at_maximum)
   /\ percentage (variation_partial_data control_at_maximum))
  /\ valid control_at_maximum
  /\ forall sq ppf cdf,
       calculate_metrics sq ppf cdf control_at_maximum = Raise ZeroDivisionError.
Proof.
  pose proof control_at_maximum_valid as Hv.
  split; [| split; [exact Hv |]].
  - unfold valid in Hv. tauto.
  - intros sq ppf cdf. apply run_raises. exact control_at_maximum_undefined.
Qed.




Lemma C9_scenario_A :
  same_but_extras scenario_A scenario_A_other_extras
  /\ scenario_A <> scenario_A_other_extras
  /\ forall sq ppf cdf,
       calculate_metrics sq ppf cdf scenario_A
       = calculate_metrics sq ppf cdf scenario_A_other_extras.
Proof.
  split; [repeat split |]. split; [discriminate |].
  intros sq ppf cdf. apply C9_extras_are_inert. repeat split.
Defined.


(** In doubles: with total errors 97 and 112 the bias score falls short
    of 15/3 = 5, and on scenario A the risk 9/5 exceeds 3/5 times the
    bias score 3. *)
Section DoublesAtInputs.
Import Floats.
Local Open Scope float_scope.


(** Where the rationals and the doubles part: the sweep's control rate
    at event loss 41, user-id errors 49, partial data 50 and error rate
    20 is zero over the rationals and a small positive double, so that
    the division of line 208 does not raise there.  At the inputs
    [control_at_maximum] and [last_point_zero] it is zero in doubles
    too. *)
Lemma sweep_rate_rounding :
  (sweep_control_rate (Widgets 10000 10 5 95 41 49 50 5 3 7 4 2) 20 == 0)%Q
  /\ (0 <? Doubles.control_observed_rate 10 41 49 50 20) = true
  /\ (Doubles.control_observed_rate 10 50 50 3 0 =? 0) = true
  /\ (Doubles.control_observed_rate 10 40 50 50 20 =? 0) = true.
Proof.
  repeat split; vm_compute; reflexivity.
Qed.

End DoublesAtInputs.

(** ** The page: helpers *)

Lemma py_int_nonneg (x : Q) : 0 <= x -> (0 <= py_int x)%Z.
Proof.
  intros H. unfold py_int, Qle in *. simpl in H.
  apply Z.quot_pos; lia.
Qed.

Lemma py_int_le (x : Q) (n : Z) : 0 <= x -> x <= inject_Z n -> (py_int x <= n)%Z.
Proof.
  intros H0 H. unfold py_int, Qle in *. simpl in H0, H.
  rewrite Z.quot_div_nonneg by lia.
  apply Z.div_le_upper_bound; lia.
Qed.

Lemma py_min_le (a b : Q) : py_min a b <= a /\ py_min a b <= b.
Proof.
  unfold py_min. destruct (Qltb b a) eqn:E.
  - apply Qltb_true in E. split; lra.
  - apply Qltb_false in E. split; lra.
Qed.

Lemma py_max_ge (a b : Q) : a <= py_max a b /\ b <= py_max a b.
Proof.
  unfold py_max. destruct (Qltb a b) eqn:E.
  - apply Qltb_true in E. split; lra.
  - apply Qltb_false in E. split; lra.
Qed.

Lemma Qdiv_pos (a b : Q) : 0 < a -> 0 < b -> 0 < a / b.
Proof.
  intros Ha Hb. apply Qinv_lt_0_compat in Hb. unfold Qdiv.
  set (c := / b) in *. nra.
Qed.

Lemma Qdiv_neg_neg (a b : Q) : a < 0 -> b < 0 -> 0 < a / b.
Proof.
  intros Ha Hb.
  setoid_replace (a / b) with ((- a) / (- b)) by (field; lra).
  apply Qdiv_pos; lra.
Qed.

Lemma factor_nonzero_l (a b : Q) : ~ a * b == 0 -> ~ a == 0.
Proof.
  intros H Ha. apply H. rewrite Ha. ring.
Qed.

Lemma factor_nonzero_r (a b : Q) : ~ a * b == 0 -> ~ b == 0.
Proof.
  intros H Hb. apply H. rewrite Hb. ring.
Qed.

(** The divisors of the page are not zero once the engine has returned. *)
Lemma returned_sample_size (w : widgets) :
  divisors_nonzero w -> ~ inject_Z (sample_size w) == 0.
Proof.
  intros (_ & Hc & _). unfold control_sample in Hc.
  apply factor_nonzero_l, factor_nonzero_l in Hc.
  intros Hz. apply Hc. rewrite Hz. reflexivity.
Qed.

Lemma returned_baseline (w : widgets) :
  divisors_nonzero w -> ~ baseline_conversion w == 0.
Proof.
  intros (Hr & _). unfold control_rate in Hr. now apply factor_nonzero_l in Hr.
Qed.

Lemma returned_kept_partial (w : widgets) :
  divisors_nonzero w -> ~ 1 - control_partial_data w / 100 == 0.
Proof.
  intros (Hr & _). unfold control_rate in Hr. now apply factor_nonzero_r in Hr.
Qed.

Lemma sample_ratio_is_kept_share (w : widgets) :
  ~ inject_Z (sample_size w) == 0 ->
  (control_sample w + variation_sample w) / inject_Z (sample_size w) == kept_share w.
Proof.
  intros Hn. unfold control_sample, variation_sample, kept_share. field. exact Hn.
Qed.

(** ** The page: properties *)

Section Page.

Variable sqrt_nonneg : Q -> Q.
Variable norm_ppf : Q -> float64.
Variable norm_cdf : float64 -> float64.

Local Abbreviation run := (calculate_metrics sqrt_nonneg norm_ppf norm_cdf).

(** X1.  Once the engine has returned a result, no division below it on
    the page raises [ZeroDivisionError]: the divisions by [sample_size],
    [baseline_conversion] and [expected_lift] of the cards and of the
    recommendations all have a non-zero divisor (the last one is guarded
    by [expected_lift != 0]); and the chart's columns are not empty, so
    [min] and [max] of the axis domain raise no [ValueError]. *)
Theorem X1_page_never_raises (w : widgets) (r : metrics) :
  run w = OK r ->
  (exists v, effective_sample_card w r = OK v)
  /\ (exists v, observed_conversion_card w r = OK v)
  /\ (exists v, actual_lift_card w r = OK v)
  /\ (exists f, recommendations w r = OK f)
  /\ (exists d, y_domain (chart_data r) = Some d).
Proof.
  intros Hr. apply run_OK_inv in Hr. destruct Hr as [Hd ->].
  pose proof (returned_sample_size w Hd) as Hn.
  pose proof (returned_baseline w Hd) as Hb.
  unfold effective_sample_card, observed_conversion_card, recommendations,
    actual_lift_card, y_domain.
  rewrite !(py_div_OK _ _ Hn), (py_div_OK _ _ Hb). unfold bind.
  repeat split; try (eexists; reflexivity).
  destruct (Qeq_bool (expected_lift w) 0) eqn:E; simpl negb; cbv iota.
  - eexists; reflexivity.
  - assert (He : ~ expected_lift w == 0).
    { intros Hz. apply Qeq_bool_iff in Hz. congruence. }
    rewrite !(py_div_OK _ _ He).
    repeat match goal with
           | |- context [if Qltb ?a ?b then _ else _] => destruct (Qltb a b)
           end; eexists; reflexivity.
Qed.

(** X2.  For a valid input on which the engine returns, the values
    passed to the progress bars of the "Effective Sample Size" and
    "Observed Conversion" cards lie in (0, 1], both percentages shown lie
    between 0 and 100, and the number of users shown lies between 0 and
    [sample_size]. *)
Theorem X2_bars_within_range (w : widgets) (r : metrics) :
  valid w -> run w = OK r ->
  exists s c,
    effective_sample_card w r = OK s
    /\ observed_conversion_card w r = OK c
    /\ (0 < sample_bar s /\ sample_bar s <= 1)
    /\ (0 <= sample_percent s <= 100)%Z
    /\ (0 <= users_shown s <= sample_size w)%Z
    /\ (0 < conversion_bar c /\ conversion_bar c <= 1)
    /\ (0 <= conversion_percent c <= 100)%Z.
Proof.
  intros Hv Hr. apply run_OK_inv in Hr. destruct Hr as [Hd ->].
  pose proof (returned_sample_size w Hd) as Hn.
  pose proof (returned_baseline w Hd) as Hb.
  unfold effective_sample_card, observed_conversion_card.
  rewrite (py_div_OK _ _ Hn), (py_div_OK _ _ Hb). unfold bind.
  eexists. eexists. split; [reflexivity |]. split; [reflexivity |].
  fields. cbn [sample_bar sample_percent users_shown conversion_bar conversion_percent].
  pose proof (valid_control_sample w Hv) as [Hc0 Hc1].
  pose proof (valid_variation_sample w Hv) as [Hv0 Hv1].
  assert (Hpos : 0 < inject_Z (sample_size w)).
  { destruct Hv as (Hs & _). now apply inject_Z_pos. }
  assert (Hratio : 0 < (control_sample w + variation_sample w) / inject_Z (sample_size w)
                   /\ (control_sample w + variation_sample w) / inject_Z (sample_size w)
                      <= 1).
  { split.
    - apply Qdiv_pos; lra.
    - apply Qle_shift_div_r; [exact Hpos |]. qconst. lra. }
  assert (Hconv : control_rate w / baseline_conversion w
                  == 1 - control_partial_data w / 100).
  { unfold control_rate. field. exact Hb. }
  assert (Hkept : 0 < 1 - control_partial_data w / 100
                  /\ 1 - control_partial_data w / 100 <= 1).
  { destruct Hv as (_ & _ & _ & _ & (_ & _ & Hp) & _). now apply kept_fraction. }
  destruct Hratio as [Hr0 Hr1]. destruct Hkept as [Hk0 Hk1].
  split; [split; assumption |].
  split.
  { set (q := (control_sample w + variation_sample w) / inject_Z (sample_size w)) in *.
    split; [apply py_int_nonneg | apply (py_int_le _ 100)];
      try change (inject_Z 100) with 100; lra. }
  split.
  { split; [apply py_int_nonneg; lra |].
    apply py_int_le; [lra |]. qconst. lra. }
  assert (Hmin : py_min 1 (control_rate w / baseline_conversion w)
                 == control_rate w / baseline_conversion w).
  { unfold py_min. destruct (Qltb _ 1) eqn:E; [reflexivity |].
    apply Qltb_false in E. apply Qle_antisym; lra. }
  split; [rewrite Hmin, Hconv; split; assumption |].
  split; [apply py_int_nonneg | apply (py_int_le _ 100)];
    try change (inject_Z 100) with 100; rewrite Hconv; lra.
Qed.

(** X3.  The "Actual Lift" card never divides by zero.  When
    [expected_lift] is 0 it shows neither bar nor text; otherwise the
    bar's length lies in [0, 1], and a percentage of the expected lift is
    shown only when the actual and the expected lift have the same strict
    sign, so that the percentage is never negative. *)
Theorem X3_lift_card (w : widgets) (r : metrics) :
  exists v,
    actual_lift_card w r = OK v
    /\ (expected_lift w == 0 -> lift_bar v = None)
    /\ (~ expected_lift w == 0 ->
        exists ratio text,
          lift_bar v = Some (ratio, text)
          /\ 0 <= ratio /\ ratio <= 1
          /\ forall n, text = Percent_of_expected n ->
                       (0 <= n)%Z /\ 0 < actual_lift r / expected_lift w).
Proof.
  unfold actual_lift_card.
  destruct (Qeq_bool (expected_lift w) 0) eqn:E; simpl negb; cbv iota.
  - eexists. split; [reflexivity |]. split; [reflexivity |].
    intros He. apply Qeq_bool_iff in E. contradiction.
  - assert (He : ~ expected_lift w == 0).
    { intros Hz. apply Qeq_bool_iff in Hz. congruence. }
    rewrite !(py_div_OK _ _ He).
    assert (Hbar : 0 <= py_min 1 (py_max 0 (actual_lift r / expected_lift w))
                   /\ py_min 1 (py_max 0 (actual_lift r / expected_lift w)) <= 1).
    { pose proof (py_max_ge 0 (actual_lift r / expected_lift w)) as [Hm _].
      pose proof (py_min_le 1 (py_max 0 (actual_lift r / expected_lift w))) as [Hl _].
      split; [| exact Hl].
      unfold py_min. destruct (Qltb _ 1); [exact Hm | lra]. }
    destruct Hbar as [Hb0 Hb1].
    assert (Hshown : forall text,
               (forall n, text = Percent_of_expected n ->
                          (0 <= n)%Z /\ 0 < actual_lift r / expected_lift w) ->
               exists v,
                 OK (Lift_view
                       (if Qltb 0 (actual_lift r) then "green"%string else "red"%string)
                       (if Qltb 0 (actual_lift r) then "+"%string else ""%string)
                       (Some (py_min 1 (py_max 0 (actual_lift r / expected_lift w)),
                              text))) = OK v
                 /\ (expected_lift w == 0 -> lift_bar v = None)
                 /\ (~ expected_lift w == 0 ->
                     exists ratio text',
                       lift_bar v = Some (ratio, text')
                       /\ 0 <= ratio /\ ratio <= 1
                       /\ forall n, text' = Percent_of_expected n ->
                                    (0 <= n)%Z
                                    /\ 0 < actual_lift r / expected_lift w)).
    { intros text Htext. eexists. split; [reflexivity |].
      split; [intros Hz; contradiction |].
      intros _. exists (py_min 1 (py_max 0 (actual_lift r / expected_lift w))), text.
      split; [reflexivity |]. split; [exact Hb0 |]. split; [exact Hb1 |]. exact Htext. }
    destruct (Qltb 0 (expected_lift w)) eqn:Ee.
    + apply Qltb_true in Ee.
      destruct (Qltb 0 (actual_lift r)) eqn:Ea; unfold bind; apply Hshown; intros n Hn.
      * injection Hn as <-. apply Qltb_true in Ea.
        pose proof (Qdiv_pos _ _ Ea Ee) as Hp.
        split; [apply py_int_nonneg; lra | exact Hp].
      * discriminate Hn.
    + apply Qltb_false in Ee.
      assert (Hneg : expected_lift w < 0).
      { apply Qnot_le_lt. intros Hge. apply He. apply Qle_antisym; assumption. }
      destruct (Qltb (actual_lift r) 0) eqn:Ea; unfold bind; apply Hshown; intros n Hn.
      * injection Hn as <-. apply Qltb_true in Ea.
        pose proof (Qdiv_neg_neg _ _ Ea Hneg) as Hp.
        split; [apply py_int_nonneg; lra | exact Hp].
      * discriminate Hn.
Qed.

Lemma recommendations_OK_inv (w : widgets) (r : metrics) (f : warnings) :
  recommendations w r = OK f ->
  asymmetry_warning f = Qle_bool 5 (bias_risk_score r)
  /\ sample_warning f
     = Qltb (effective_sample_size r / inject_Z (sample_size w)) 0.8
  /\ power_warning f = np_ltb (stat_power r) (Fin 80)
  /\ discrepancy_warning f
     = np_gtb (Fin (Qabs (actual_lift r - expected_lift w))) (detection_threshold r).
Proof.
  unfold recommendations. intros H.
  apply bind_OK_inv in H. destruct H as (q & Hq & H).
  apply py_div_OK_inv in Hq. destruct Hq as [_ ->].
  injection H as <-. repeat split.
Qed.

Lemma recommendations_returned (w : widgets) (r : metrics) :
  ~ inject_Z (sample_size w) == 0 -> exists f, recommendations w r = OK f.
Proof.
  intros Hn. unfold recommendations. rewrite (py_div_OK _ _ Hn). now eexists.
Qed.

Ltac use_warning :=
  match goal with
  | Hw : forall w f, recommendations w _ = OK f -> power_warning f = _,
    H : recommendations _ _ = OK _ |- _ =>
      rewrite (Hw _ _ H) in *; simpl in *; congruence
  end.

(** X4.  On the "Statistical Power" card the colour and the text always
    go together (green with "Sufficient power", orange with "Borderline
    power", red with "Insufficient power").  When the power is not NaN,
    the power warning of the recommendations is written exactly when the
    text is not "Sufficient power".  When the power is NaN the card is red
    and says "Insufficient power", its bar is full, and the warning is not
    written. *)
Theorem X4_power_card (r : metrics) :
  let v := statistical_power_card r in
  (power_color v = "green"%string <-> power_text v = "Sufficient power"%string)
  /\ (power_color v = "orange"%string <-> power_text v = "Borderline power"%string)
  /\ (power_color v = "red"%string <-> power_text v = "Insufficient power"%string)
  /\ (forall w f,
        recommendations w r = OK f -> stat_power r <> NaN ->
        (power_warning f = true <-> power_text v <> "Sufficient power"%string))
  /\ (stat_power r = NaN ->
      power_color v = "red"%string
      /\ power_text v = "Insufficient power"%string
      /\ power_bar v = Fin 1
      /\ forall w f, recommendations w r = OK f -> power_warning f = false).
Proof.
  cbv zeta. unfold statistical_power_card.
  cbn [power_color power_text power_bar].
  assert (Hw : forall w f, recommendations w r = OK f ->
                           power_warning f = np_ltb (stat_power r) (Fin 80)).
  { intros w f H. now apply recommendations_OK_inv in H. }
  destruct (stat_power r) as [q | | |] eqn:Ep.
  - unfold np_geb, np_leb, np_ltb, Qltb in *.
    destruct (Qle_bool 80 q), (Qle_bool 50 q); simpl;
      repeat split; intros; try discriminate; try congruence; use_warning.
  - simpl. repeat split; intros; try discriminate; try congruence; use_warning.
  - simpl. repeat split; intros; try discriminate; try congruence; use_warning.
  - simpl. repeat split; intros; try discriminate; try congruence; use_warning.
Qed.

(** X5.  On the "Bias Risk Score" card the colour and the text always go
    together (green with "Low risk of bias", orange with "Moderate risk
    of bias", red with "High risk of bias"), and the asymmetry warning of
    the recommendations is written exactly when the text is not "Low risk
    of bias". *)
Theorem X5_bias_card_and_warning (r : metrics) :
  let v := bias_risk_card r in
  (bias_color v = "green"%string <-> bias_text v = "Low risk of bias"%string)
  /\ (bias_color v = "orange"%string <-> bias_text v = "Moderate risk of bias"%string)
  /\ (bias_color v = "red"%string <-> bias_text v = "High risk of bias"%string)
  /\ forall w f,
       recommendations w r = OK f ->
       (asymmetry_warning f = true <-> bias_text v <> "Low risk of bias"%string).
Proof.
  cbv zeta. unfold bias_risk_card. cbn [bias_color bias_text].
  assert (Hw : forall w f, recommendations w r = OK f ->
                           asymmetry_warning f = Qle_bool 5 (bias_risk_score r)).
  { intros w f H. now apply recommendations_OK_inv in H. }
  unfold Qltb.
  destruct (Qle_bool 5 (bias_risk_score r)) eqn:E5,
    (Qle_bool 10 (bias_risk_score r)) eqn:E10; simpl;
    (split; [split; intros; try discriminate; try congruence |]);
    (split; [split; intros; try discriminate; try congruence |]);
    (split; [split; intros; try discriminate; try congruence |]);
    intros w f Hf; rewrite (Hw w f Hf);
    split; intros; try discriminate; try congruence.
Qed.

Lemma step7_valid_result (x e d : Q) (t : float64) :
  step7 x e d t = Likely_valid_result -> rule_d x e t = true.
Proof.
  unfold step7, first_match.
  destruct (rule_a x e d), (rule_b x e d), (rule_c x t), (rule_d x e t);
    intros H; try discriminate H; reflexivity.
Qed.

(** Within half the threshold is not beyond the threshold. *)
Lemma within_half_not_beyond (a : Q) (t : float64) :
  np_ltb (Fin (Qabs a)) (np_div t (Fin 2)) = true ->
  np_gtb (Fin (Qabs a)) t = false.
Proof.
  destruct t as [m | | |]; simpl; intros H; try reflexivity; try discriminate H.
  unfold np_gtb, np_ltb. apply Qltb_true in H. apply Qltb_false.
  pose proof (Qabs_nonneg a). qconst. lra.
Qed.

(** X6.  When the engine's conclusion is "Likely valid result", the
    recommendations never write the warning that the observed lift
    differs significantly from the expected lift. *)
Theorem X6_valid_result_has_no_discrepancy_warning
        (w : widgets) (r : metrics) (f : warnings) :
  run w = OK r -> recommendations w r = OK f ->
  prefix "Likely valid result" (conclusion r) = true ->
  discrepancy_warning f = false.
Proof.
  intros Hr Hf Hp.
  apply recommendations_OK_inv in Hf. destruct Hf as (_ & _ & _ & ->).
  apply run_OK_inv in Hr. destruct Hr as [_ ->].
  revert Hp. fields. intros Hp.
  apply (label_of_conclusion (step7_label sqrt_nonneg norm_ppf w) Likely_valid_result)
    in Hp.
  symmetry in Hp. apply step7_valid_result in Hp.
  apply within_half_not_beyond. exact Hp.
Qed.

Lemma np_add_NaN_r (x : float64) : np_add x NaN = NaN.
Proof. destruct x; reflexivity. Qed.

Lemma np_mul_NaN_r (x : float64) : np_mul x NaN = NaN.
Proof. destruct x; reflexivity. Qed.

Lemma np_div_NaN_r (x : float64) : np_div x NaN = NaN.
Proof. destruct x; reflexivity. Qed.

(** With a variation rate above 100 the pooled standard error is NaN. *)
Lemma pooled_se_NaN (w : widgets) :
  0 < variation_sample w -> 100 < variation_rate w ->
  pooled_se sqrt_nonneg w = NaN.
Proof.
  intros Hs Hv. unfold pooled_se, standard_error.
  assert (Hneg : Qltb (variation_rate w * (100 - variation_rate w) / variation_sample w)
                      0 = true).
  { apply Qltb_true.
    setoid_replace (variation_rate w * (100 - variation_rate w) / variation_sample w)
      with (- (variation_rate w * (variation_rate w - 100) / variation_sample w))
      by (field; lra).
    assert (0 < variation_rate w * (variation_rate w - 100) / variation_sample w);
      [| lra].
    apply Qdiv_pos; [nra | exact Hs]. }
  assert (Hse : np_sqrt sqrt_nonneg
                        (Fin (variation_rate w * (100 - variation_rate w)
                              / variation_sample w)) = NaN).
  { unfold np_sqrt. now rewrite Hneg. }
  cbv zeta. rewrite Hse.
  change (np_mul NaN NaN) with NaN. rewrite np_add_NaN_r. reflexivity.
Qed.

(** X8.  A valid input whose variation group would convert at more than
    100% ([baseline_conversion * (1 + expected_lift/100) * (1 -
    variation.partial_data/100) > 100]) is not rejected: the square root
    of a negative variance makes the detection threshold NaN, the power
    is whatever [norm.cdf] gives on NaN, no point of the curve is
    significant, the conclusion is neither "Inconclusive" nor "Likely
    valid result", and the discrepancy warning is not written. *)
Theorem X8_rate_above_100_gives_NaN (w : widgets) :
  valid w -> sweep_defined w -> 100 < variation_rate w ->
  exists r,
    run w = OK r
    /\ detection_threshold r = NaN
    /\ stat_power r = np_mul (norm_cdf NaN) (Fin 100)
    /\ Significant (chart_data r) = repeat false 11
    /\ prefix "Inconclusive" (conclusion r) = false
    /\ prefix "Likely valid result" (conclusion r) = false
    /\ forall f, recommendations w r = OK f -> discrepancy_warning f = false.
Proof.
  intros Hv Hs Hrate.
  exists (metrics_of sqrt_nonneg norm_ppf norm_cdf w).
  split; [exact (run_OK _ _ _ w (valid_divisors w Hv Hs)) |].
  pose proof (valid_variation_sample w Hv) as [Hpos _].
  pose proof (pooled_se_NaN w Hpos Hrate) as Hse.
  assert (Ht : step5_threshold sqrt_nonneg norm_ppf w = NaN).
  { unfold step5_threshold. rewrite Hse, np_mul_NaN_r. reflexivity. }
  split; [exact Ht |]. split.
  { fields. unfold step5_power. cbv zeta. rewrite Hse, np_div_NaN_r. reflexivity. }
  split.
  { fields. unfold step8_flag. rewrite Ht. reflexivity. }
  assert (Hl : step7_label sqrt_nonneg norm_ppf w = Likely_false_negative
               \/ step7_label sqrt_nonneg norm_ppf w = Potential_false_positive
               \/ step7_label sqrt_nonneg norm_ppf w = Requires_investigation).
  { unfold step7_label, step7, first_match, rule_c, rule_d. rewrite Ht.
    destruct (rule_a (reported_lift w) (expected_lift w) (quality_delta w)),
      (rule_b (reported_lift w) (expected_lift w) (quality_delta w)); simpl; tauto. }
  split; [| split].
  - fields. destruct Hl as [-> | [-> | ->]]; reflexivity.
  - fields. destruct Hl as [-> | [-> | ->]]; reflexivity.
  - intros f Hf. apply recommendations_OK_inv in Hf. destruct Hf as (_ & _ & _ & ->).
    fields. rewrite Ht. reflexivity.
Qed.

(** X9.  In every result the two risk scores are non-negative, at most
    one of them is not zero, and they add up to [|quality_delta| / 5]. *)
Theorem X9_risk_scores (w : widgets) (r : metrics) :
  run w = OK r ->
  0 <= false_positive_risk r
  /\ 0 <= false_negative_risk r
  /\ (false_positive_risk r == 0 \/ false_negative_risk r == 0)
  /\ false_positive_risk r + false_negative_risk r == Qabs (quality_delta w) / 5.
Proof.
  intros Hr. apply run_OK_inv in Hr. destruct Hr as [_ ->]. fields.
  set (d := quality_delta w).
  assert (Habs : Qabs (d / 5) == Qabs d / 5).
  { unfold Qdiv. rewrite Qabs_Qmult. reflexivity. }
  pose proof (Qabs_nonneg d) as Hn.
  destruct (Qltb d 0) eqn:E1; destruct (Qltb 0 d) eqn:E2;
    try apply Qltb_true in E1; try apply Qltb_true in E2;
    try apply Qltb_false in E1; try apply Qltb_false in E2.
  - lra.
  - rewrite Habs. qconst.
    split; [lra |]. split; [lra |]. split; [right; reflexivity | lra].
  - rewrite (Qabs_pos d) by lra. qconst.
    split; [lra |]. split; [lra |]. split; [left; reflexivity | lra].
  - assert (Hd : d == 0) by lra. rewrite Hd.
    split; [lra |]. split; [lra |]. split; [left; reflexivity | reflexivity].
Qed.

(** The reported lift without the baseline. *)
Lemma reported_lift_baseline_free (w : widgets) :
  divisors_nonzero w ->
  reported_lift w
  == ((1 + expected_lift w / 100) * (1 - variation_partial_data w / 100)
      / (1 - control_partial_data w / 100) - 1) * 100.
Proof.
  intros Hd.
  pose proof (returned_baseline w Hd) as Hb.
  pose proof (returned_kept_partial w Hd) as Hk.
  unfold reported_lift, ratio_lift, variation_rate, control_rate.
  field. split; [| exact Hb].
  intros Hz. apply Hk. qconst. lra.
Qed.

(** X11.  After the engine has returned, the sample-size warning of the
    recommendations is not written when all four attrition rates (event
    loss and user-id errors of both groups) lie between 0 and 10, and it
    is written when all four lie between 11 and 100. *)
Theorem X11_sample_warning (w : widgets) (r : metrics) (f : warnings) :
  run w = OK r -> recommendations w r = OK f ->
  ((0 <= control_event_loss w /\ control_event_loss w <= 10) ->
   (0 <= control_user_id_error w /\ control_user_id_error w <= 10) ->
   (0 <= variation_event_loss w /\ variation_event_loss w <= 10) ->
   (0 <= variation_user_id_error w /\ variation_user_id_error w <= 10) ->
   sample_warning f = false)
  /\ ((11 <= control_event_loss w /\ control_event_loss w <= 100) ->
      (11 <= control_user_id_error w /\ control_user_id_error w <= 100) ->
      (11 <= variation_event_loss w /\ variation_event_loss w <= 100) ->
      (11 <= variation_user_id_error w /\ variation_user_id_error w <= 100) ->
      sample_warning f = true).
Proof.
  intros Hr Hf.
  apply recommendations_OK_inv in Hf. destruct Hf as (_ & -> & _).
  apply run_OK_inv in Hr. destruct Hr as [Hd ->]. fields.
  pose proof (sample_ratio_is_kept_share w (returned_sample_size w Hd)) as Hk.
  assert (Hiff : Qltb ((control_sample w + variation_sample w)
                       / inject_Z (sample_size w)) 0.8 = true
                 <-> kept_share w < 0.8).
  { rewrite Qltb_true, Hk. reflexivity. }
  split; intros [? ?] [? ?] [? ?] [? ?].
  - apply not_true_iff_false. rewrite Hiff. unfold kept_share. qconst.
    set (a := control_user_id_error w) in *. set (b := control_event_loss w) in *.
    set (c := variation_user_id_error w) in *. set (d := variation_event_loss w) in *.
    assert ((9 # 10) * (9 # 10) <= (1 - a * (1 # 100)) * (1 - b * (1 # 100))) by nra.
    assert ((9 # 10) * (9 # 10) <= (1 - c * (1 # 100)) * (1 - d * (1 # 100))) by nra.
    lra.
  - apply Hiff. unfold kept_share. qconst.
    set (a := control_user_id_error w) in *. set (b := control_event_loss w) in *.
    set (c := variation_user_id_error w) in *. set (d := variation_event_loss w) in *.
    assert ((1 - a * (1 # 100)) * (1 - b * (1 # 100)) <= (89 # 100) * (89 # 100)) by nra.
    assert ((1 - c * (1 # 100)) * (1 - d * (1 # 100)) <= (89 # 100) * (89 # 100)) by nra.
    lra.
Qed.

(** X12.  For a valid input with [expected_lift > -100] on which the
    engine returns, the group with more partial data decides the
    direction of the distortion: more partial data in the variation than
    in the control makes the actual lift smaller than the expected lift,
    less makes it larger. *)
Theorem X12_direction_of_distortion (w : widgets) (r : metrics) :
  valid w -> -100 < expected_lift w -> run w = OK r ->
  (control_partial_data w < variation_partial_data w ->
   actual_lift r < expected_lift w)
  /\ (variation_partial_data w < control_partial_data w ->
      expected_lift w < actual_lift r).
Proof.
  intros Hv Hl Hr. apply run_OK_inv in Hr. destruct Hr as [Hd ->]. fields.
  rewrite (reported_lift_baseline_free w Hd).
  destruct Hv as (_ & _ & _ & _ & (_ & _ & Hc) & (_ & _ & Hp)).
  destruct (kept_fraction _ Hc) as [Hc0 _].
  destruct (kept_fraction _ Hp) as [Hp0 _].
  set (t := 1 - control_partial_data w / 100) in *.
  set (s := 1 - variation_partial_data w / 100) in *.
  assert (Ha : 0 < 1 + expected_lift w / 100) by (qconst; lra).
  set (a := 1 + expected_lift w / 100) in *.
  assert (He : expected_lift w == (a - 1) * 100) by (unfold a; field).
  assert (Hq : a * s / t == a * (s / t)) by (field; lra).
  rewrite Hq.
  split; intros H.
  - assert (Hst : s < t) by (unfold s, t; qconst; lra).
    assert (Hr1 : s / t < 1).
    { apply Qlt_shift_div_r; [exact Hc0 | lra]. }
    set (q := s / t) in *. nra.
  - assert (Hst : t < s) by (unfold s, t; qconst; lra).
    assert (Hr1 : 1 < s / t).
    { apply Qlt_shift_div_l; [exact Hc0 | lra]. }
    set (q := s / t) in *. nra.
Qed.

End Page.

(** ** The page at concrete inputs *)

Lemma scenario_A_divisors : divisors_nonzero scenario_A.
Proof.
  exact (valid_divisors _ scenario_A_valid scenario_A_sweep_defined).
Qed.

Lemma identical_profiles_divisors : divisors_nonzero identical_profiles.
Proof.
  repeat split; try nonzero_by_computation.
  intros e He. simpl in He.
  repeat (destruct He as [<- | He]; [nonzero_by_computation |]).
  contradiction.
Qed.

Lemma variation_above_100_valid : valid variation_above_100.
Proof.
  unfold valid, percentage, variation_above_100. projections.
  repeat split; try lia; try lra.
Qed.

Lemma variation_above_100_sweep_defined : sweep_defined variation_above_100.
Proof.
  intros e He. simpl in He.
  repeat (destruct He as [<- | He]; [nonzero_by_computation |]).
  contradiction.
Qed.

Lemma X1_scenario_A :
  valid scenario_A
  /\ forall sq ppf cdf, exists r,
       calculate_metrics sq ppf cdf scenario_A = OK r
       /\ (exists v, effective_sample_card scenario_A r = OK v)
       /\ (exists v, observed_conversion_card scenario_A r = OK v)
       /\ (exists v, actual_lift_card scenario_A r = OK v)
       /\ (exists f, recommendations scenario_A r = OK f)
       /\ (exists d, y_domain (chart_data r) = Some d).
Proof.
  split; [exact scenario_A_valid |]. intros sq ppf cdf.
  pose proof (run_OK sq ppf cdf _ scenario_A_divisors) as Hr.
  eexists. split; [exact Hr |].
  exact (X1_page_never_raises sq ppf cdf _ _ Hr).
Defined.

Lemma X2_scenario_A :
  valid scenario_A
  /\ forall sq ppf cdf, exists r s c,
       calculate_metrics sq ppf cdf scenario_A = OK r
       /\ effective_sample_card scenario_A r = OK s
       /\ observed_conversion_card scenario_A r = OK c
       /\ (0 < sample_bar s /\ sample_bar s <= 1)
       /\ (0 < conversion_bar c /\ conversion_bar c <= 1)
       /\ (0 <= users_shown s <= 10000)%Z.
Proof.
  split; [exact scenario_A_valid |]. intros sq ppf cdf.
  pose proof (run_OK sq ppf cdf _ scenario_A_divisors) as Hr.
  destruct (X2_bars_within_range sq ppf cdf _ _ scenario_A_valid Hr)
    as (s & c & Hs & Hc & Hsb & _ & Hu & Hcb & _).
  eexists. exists s, c. split; [exact Hr |].
  split; [exact Hs |]. split; [exact Hc |].
  split; [exact Hsb |]. split; [exact Hcb | exact Hu].
Defined.

Lemma X6_identical_profiles :
  divisors_nonzero identical_profiles
  /\ forall cdf, exists r f,
       calculate_metrics sqrt_4_decimals ppf_table cdf identical_profiles = OK r
       /\ recommendations identical_profiles r = OK f
       /\ prefix "Likely valid result" (conclusion r) = true
       /\ discrepancy_warning f = false.
Proof.
  split; [exact identical_profiles_divisors |]. intros cdf.
  pose proof (run_OK sqrt_4_decimals ppf_table cdf _ identical_profiles_divisors) as Hr.
  destruct (recommendations_returned
              identical_profiles
              (metrics_of sqrt_4_decimals ppf_table cdf identical_profiles)
              (returned_sample_size _ identical_profiles_divisors)) as [f Hf].
  assert (Hp : prefix "Likely valid result"
                      (conclusion (metrics_of sqrt_4_decimals ppf_table cdf
                                              identical_profiles)) = true)
    by (fields; vm_compute; reflexivity).
  eexists. exists f. split; [exact Hr |]. split; [exact Hf |]. split; [exact Hp |].
  exact (X6_valid_result_has_no_discrepancy_warning
           sqrt_4_decimals ppf_table cdf _ _ f Hr Hf Hp).
Defined.

Lemma X8_variation_above_100 :
  valid variation_above_100 /\ sweep_defined variation_above_100
  /\ variation_rate variation_above_100 == 111.6
  /\ forall sq ppf cdf, exists r,
       calculate_metrics sq ppf cdf variation_above_100 = OK r
       /\ detection_threshold r = NaN
       /\ Significant (chart_data r) = repeat false 11.
Proof.
  split; [exact variation_above_100_valid |].
  split; [exact variation_above_100_sweep_defined |].
  split; [reflexivity |]. intros sq ppf cdf.
  assert (Hrate : 100 < variation_rate variation_above_100) by reflexivity.
  destruct (X8_rate_above_100_gives_NaN sq ppf cdf _
              variation_above_100_valid variation_above_100_sweep_defined Hrate)
    as (r & Hr & Ht & _ & Hs & _).
  exists r. repeat split; assumption.
Defined.

Lemma X9_scenario_A :
  valid scenario_A
  /\ forall sq ppf cdf, exists r,
       calculate_metrics sq ppf cdf scenario_A = OK r
       /\ false_positive_risk r + false_negative_risk r == 9 # 5.
Proof.
  split; [exact scenario_A_valid |]. intros sq ppf cdf.
  pose proof (run_OK sq ppf cdf _ scenario_A_divisors) as Hr.
  destruct (X9_risk_scores sq ppf cdf _ _ Hr) as (_ & _ & _ & Hsum).
  eexists. split; [exact Hr |]. rewrite Hsum. reflexivity.
Defined.

Lemma X11_scenario_A :
  valid scenario_A
  /\ forall sq ppf cdf, exists r f,
       calculate_metrics sq ppf cdf scenario_A = OK r
       /\ recommendations scenario_A r = OK f
       /\ sample_warning f = false.
Proof.
  split; [exact scenario_A_valid |]. intros sq ppf cdf.
  pose proof (run_OK sq ppf cdf _ scenario_A_divisors) as Hr.
  destruct (recommendations_returned
              scenario_A (metrics_of sq ppf cdf scenario_A)
              (returned_sample_size _ scenario_A_divisors)) as [f Hf].
  destruct (X11_sample_warning sq ppf cdf _ _ f Hr Hf) as [H _].
  eexists. exists f. split; [exact Hr |]. split; [exact Hf |].
  apply H; unfold scenario_A; projections; split; lra.
Defined.

Lemma X12_scenario_A :
  valid scenario_A
  /\ control_partial_data scenario_A < variation_partial_data scenario_A
  /\ forall sq ppf cdf, exists r,
       calculate_metrics sq ppf cdf scenario_A = OK r
       /\ actual_lift r < expected_lift scenario_A.
Proof.
  split; [exact scenario_A_valid |]. split; [reflexivity |]. intros sq ppf cdf.
  pose proof (run_OK sq ppf cdf _ scenario_A_divisors) as Hr.
  assert (Hl : -100 < expected_lift scenario_A) by reflexivity.
  destruct (X12_direction_of_distortion sq ppf cdf _ _ scenario_A_valid Hl Hr)
    as [H _].
  eexists. split; [exact Hr |]. apply H. reflexivity.
Defined.
